(** * PSRAM disk of the COLDCARD Mk4 (stm32/COLDCARD_MK4/psramdisk.c)

    A shallow embedding of the RAM disk that psramdisk.c exposes to the USB
    mass-storage (SCSI) layer and to MicroPython as a block device, and the
    properties of it that the design document states.

    Conventions of the embedding.
    - C integers are [Z].  A parameter of type [uint8_t], [uint16_t] or
      [uint32_t] is passed as a [Z] in the range of its type; every conversion
      the C code performs implicitly (an argument narrowed at a call, a value
      stored into a narrower variable, unsigned wrap-around of an expression)
      is written out with [u8], [u16], [u32] where it happens.
    - Memory is a total map from byte addresses to byte values; the PSRAM
      region is the 8 MiB at [PSRAM_BASE].  Caller buffers handed to the SCSI
      and block-device entry points are lists of bytes.
    - Globals ([psram_msc_lu_flags], the console) and memory are threaded
      explicitly: a function takes the state it reads and returns the state it
      leaves. *)

From Stdlib Require Import String Ascii.
From Stdlib Require Import ZArith List Lia Bool.
Import ListNotations.
Local Open Scope Z_scope.

(** ** Machine integers *)

Definition u8  (x : Z) : Z := x mod 2 ^ 8.
Definition u16 (x : Z) : Z := x mod 2 ^ 16.
Definition u32 (x : Z) : Z := x mod 2 ^ 32.

(** Conversion of a 32-bit unsigned value to [int]. *)
Definition s32 (x : Z) : Z :=
  let y := u32 x in if y <? 2 ^ 31 then y else y - 2 ^ 32.

(** ** Memory *)

Definition mem := Z -> Z.

(** [memcpy(dst, src, n)] with [dst] a caller buffer and [src] in memory:
    the [n] bytes at [p], in address order. *)
Definition load_bytes (m : mem) (p n : Z) : list Z :=
  map (fun i => m (p + Z.of_nat i)) (seq 0 (Z.to_nat n)).

(** The caller buffer after its first bytes were overwritten by [data].  The
    C code trusts the caller for the size of the buffer; on a buffer shorter
    than [data], which C would overrun, the result is [data]. *)
Definition blit (data buf : list Z) : list Z :=
  data ++ skipn (length data) buf.

(** [memcpy(dst, src, n)] with [dst] in memory and [src] a caller buffer. *)
Definition store_bytes (m : mem) (p : Z) (src : list Z) (n : Z) : mem :=
  fun a =>
    if (p <=? a) && (a <? p + n) then nth (Z.to_nat (a - p)) src 0 else m a.

Definition memset (m : mem) (p c n : Z) : mem :=
  fun a => if (p <=? a) && (a <? p + n) then c else m a.

(** ** Storage geometry *)

Definition PSRAM_BASE : Z := 0x90000000.
Definition PSRAM_SIZE : Z := 0x800000.
Definition BLOCK_SIZE : Z := 512.
Definition BLOCK_COUNT : Z := 16384.

(** A pointer result: [None] is [NULL]. *)
Definition block_to_ptr (blk num_blk : Z) : option Z :=
  if BLOCK_COUNT <=? blk then None
  else if BLOCK_COUNT <=? u32 (blk + u32 (num_blk * BLOCK_SIZE)) then None
  else Some (PSRAM_BASE + u32 (blk * BLOCK_SIZE)).

(** ** SCSI read and write *)

Definition psram_msc_lu_num : Z := 1.

Definition psram_msc_Read (lun : Z) (buf : list Z) (blk_addr blk_len : Z)
    (m : mem) : Z * list Z :=
  if psram_msc_lu_num <=? lun then (-1, buf)
  else match block_to_ptr blk_addr blk_len with
       | None => (-1, buf)
       | Some ptr => (0, blit (load_bytes m ptr (u32 (blk_len * BLOCK_SIZE))) buf)
       end.

Definition psram_msc_Write (lun : Z) (buf : list Z) (blk_addr blk_len : Z)
    (m : mem) : Z * mem :=
  if psram_msc_lu_num <=? lun then (-1, m)
  else match block_to_ptr blk_addr blk_len with
       | None => (-1, m)
       | Some ptr => (0, store_bytes m ptr buf (u32 (blk_len * BLOCK_SIZE)))
       end.

(** ** MicroPython objects and results *)

#[local] Set Warnings "-register-all".

Inductive mp_obj : Type :=
| mp_const_none
| MP_OBJ_NEW_SMALL_INT (n : Z)
| mp_obj_new_tuple (items : list mp_obj)
| mp_obj_new_list (items : list mp_obj).

(** A call into the runtime either returns an object or raises; the only
    exception this file raises is [ValueError], with an optional message. *)
Inductive mp_result : Type :=
| Return (o : mp_obj)
| mp_raise_ValueError (msg : option string).

(** ** Block device interface for MicroPython *)

(** [bufinfo.len] is the length of the buffer object. *)
Definition psram_readblocks (block_num : Z) (buf : list Z) (m : mem)
    : mp_result * list Z :=
  let len := Z.of_nat (length buf) in
  let blk_len := u16 (len / BLOCK_SIZE) in
  if blk_len <? 1 then (mp_raise_ValueError None, buf)
  else if negb (u32 (blk_len * BLOCK_SIZE) =? len) then (mp_raise_ValueError None, buf)
  else match block_to_ptr (u32 block_num) blk_len with
       | None => (mp_raise_ValueError None, buf)
       | Some ptr => (Return (MP_OBJ_NEW_SMALL_INT 0), blit (load_bytes m ptr len) buf)
       end.

Definition psram_writeblocks (block_num : Z) (buf : list Z) (m : mem)
    : mp_result * mem :=
  let len := Z.of_nat (length buf) in
  let blk_len := u16 (len / BLOCK_SIZE) in
  if blk_len <? 1 then (mp_raise_ValueError None, m)
  else if negb (u32 (blk_len * BLOCK_SIZE) =? len) then (mp_raise_ValueError None, m)
  else match block_to_ptr (u32 block_num) blk_len with
       | None => (mp_raise_ValueError None, m)
       | Some ptr => (Return (MP_OBJ_NEW_SMALL_INT 0), store_bytes m ptr buf len)
       end.

(** Modelled from the spec: the errno constant [MP_EIO] of py/mperrno.h, which
    is not part of this file; the design only requires the failure code
    [-MP_EIO] to be negative, the runtime's value is 5. *)
Definition MP_EIO : Z := 5.

(** [num_blocks] is a [uint32_t] here, and [block_to_ptr] takes a [uint16_t]:
    the argument is narrowed at the call, the length of the copy is not. *)
Definition direct_psram_read_blocks (dest : list Z) (block_num num_blocks : Z)
    (m : mem) : Z * list Z :=
  match block_to_ptr block_num (u16 num_blocks) with
  | None => (- MP_EIO, dest)
  | Some ptr => (0, blit (load_bytes m ptr (u32 (num_blocks * BLOCK_SIZE))) dest)
  end.

Definition direct_psram_write_blocks (src : list Z) (block_num num_blocks : Z)
    (m : mem) : Z * mem :=
  match block_to_ptr block_num (u16 num_blocks) with
  | None => (- MP_EIO, m)
  | Some ptr => (0, store_bytes m ptr src (u32 (num_blocks * BLOCK_SIZE)))
  end.

(** Modelled from the spec: the [MP_BLOCKDEV_IOCTL_*] command codes of
    extmod/vfs.h, which is not part of this file; the design lists the
    recognised operations, any other code is [MP_BLOCKDEV_IOCTL_other]. *)
Inductive blockdev_ioctl : Type :=
| MP_BLOCKDEV_IOCTL_INIT
| MP_BLOCKDEV_IOCTL_DEINIT
| MP_BLOCKDEV_IOCTL_SYNC
| MP_BLOCKDEV_IOCTL_BLOCK_COUNT
| MP_BLOCKDEV_IOCTL_BLOCK_SIZE
| MP_BLOCKDEV_IOCTL_BLOCK_ERASE
| MP_BLOCKDEV_IOCTL_other (cmd : Z).

Definition psram_ioctl (cmd : blockdev_ioctl) (arg : Z) (m : mem)
    : mp_obj * mem :=
  match cmd with
  | MP_BLOCKDEV_IOCTL_INIT
  | MP_BLOCKDEV_IOCTL_DEINIT
  | MP_BLOCKDEV_IOCTL_SYNC => (MP_OBJ_NEW_SMALL_INT 0, m)
  | MP_BLOCKDEV_IOCTL_BLOCK_COUNT => (MP_OBJ_NEW_SMALL_INT BLOCK_COUNT, m)
  | MP_BLOCKDEV_IOCTL_BLOCK_SIZE => (MP_OBJ_NEW_SMALL_INT BLOCK_SIZE, m)
  | MP_BLOCKDEV_IOCTL_BLOCK_ERASE =>
      match block_to_ptr (u32 arg) 1 with
      | None => (mp_const_none, m)
      | Some ptr => (MP_OBJ_NEW_SMALL_INT 0, memset m ptr 0xff BLOCK_SIZE)
      end
  | MP_BLOCKDEV_IOCTL_other _ => (mp_const_none, m)
  end.

(** ** Logical unit flags *)

Definition FLAGS_STARTED : Z := 0x01.
Definition FLAGS_READONLY : Z := 0x02.

(** A call of [printf]: the format and its arguments. *)
Definition printf_call : Type := string * list Z.

(** The globals the SCSI handlers share: the flags word (a [uint16_t],
    zero-initialised as every C static) and the console they print to. *)
Record msc_state : Type := {
  psram_msc_lu_flags : Z;
  stdout : list printf_call
}.

Definition msc_initial : msc_state :=
  {| psram_msc_lu_flags := 0; stdout := [] |}.

Definition set_flags (st : msc_state) (f : Z) : msc_state :=
  {| psram_msc_lu_flags := f; stdout := stdout st |}.

Definition printf (fmt : string) (args : list Z) (st : msc_state) : msc_state :=
  {| psram_msc_lu_flags := psram_msc_lu_flags st;
     stdout := stdout st ++ [(fmt, args)] |}.

Definition lu_flag_set (lun flag : Z) (st : msc_state) : msc_state :=
  set_flags st
    (u16 (Z.lor (psram_msc_lu_flags st) (Z.shiftl flag (lun * 2)))).

Definition lu_flag_clr (lun flag : Z) (st : msc_state) : msc_state :=
  set_flags st
    (u16 (Z.land (psram_msc_lu_flags st) (Z.lnot (Z.shiftl flag (lun * 2))))).

Definition lu_flag_is_set (lun flag : Z) (st : msc_state) : bool :=
  negb (Z.land (psram_msc_lu_flags st) (Z.shiftl flag (lun * 2)) =? 0).

(** ** SCSI handlers on the unit state

    Each handler returns its [int8_t] status and the state it leaves. *)

Definition psram_msc_Init (lun_in : Z) (st : msc_state) : Z * msc_state :=
  if negb (lun_in =? 0) then (0, st)
  else (0, lu_flag_clr 0 FLAGS_READONLY (lu_flag_set 0 FLAGS_STARTED st)).

Definition psram_msc_IsReady (lun : Z) (st : msc_state) : Z * msc_state :=
  if psram_msc_lu_num <=? lun then (-1, st)
  else ((if lu_flag_is_set lun FLAGS_STARTED st then 0 else -1), st).

Definition psram_msc_IsWriteProtected (lun : Z) (st : msc_state)
    : Z * msc_state :=
  if psram_msc_lu_num <=? lun then (-1, st)
  else ((if lu_flag_is_set lun FLAGS_READONLY st then 1 else 0), st).

Definition psram_msc_StartStopUnit (lun started : Z) (st : msc_state)
    : Z * msc_state :=
  if psram_msc_lu_num <=? lun then (-1, st)
  else
    let st := printf "PSRAMdisk: started=%d\n" [started] st in
    if negb (started =? 0) then (0, lu_flag_set lun FLAGS_STARTED st)
    else (0, lu_flag_clr lun FLAGS_STARTED st).

Definition psram_msc_PreventAllowMediumRemoval (lun param : Z)
    (st : msc_state) : Z * msc_state :=
  (0, printf "PSRAMdisk: prevallow=%d\n" [param] st).

Definition psram_msc_GetCapacity (lun : Z) : Z * (Z * Z) :=
  (0, (BLOCK_COUNT, u16 BLOCK_SIZE)).

Definition psram_msc_GetMaxLun : Z := psram_msc_lu_num - 1.

(** The calls the SCSI layer can make on the unit state, and their effect in
    sequence. *)
Inductive lu_op : Type :=
| Init (lun : Z)
| IsReady (lun : Z)
| IsWriteProtected (lun : Z)
| StartStopUnit (lun started : Z)
| PreventAllowMediumRemoval (lun param : Z).

Definition run_op (op : lu_op) (st : msc_state) : Z * msc_state :=
  match op with
  | Init lun => psram_msc_Init lun st
  | IsReady lun => psram_msc_IsReady lun st
  | IsWriteProtected lun => psram_msc_IsWriteProtected lun st
  | StartStopUnit lun started => psram_msc_StartStopUnit lun started st
  | PreventAllowMediumRemoval lun param =>
      psram_msc_PreventAllowMediumRemoval lun param st
  end.

Definition run_ops (ops : list lu_op) (st : msc_state) : msc_state :=
  fold_left (fun s op => snd (run_op op s)) ops st.

(** [init(0)] and [set_started(0, true)]: the calls that start unit 0. *)
Definition starts_unit0 (op : lu_op) : bool :=
  match op with
  | Init lun => lun =? 0
  | StartStopUnit lun started => (lun =? 0) && negb (started =? 0)
  | _ => false
  end.

(** [set_started(0, false)]. *)
Definition stops_unit0 (op : lu_op) : bool :=
  match op with
  | StartStopUnit lun started => (lun =? 0) && (started =? 0)
  | _ => false
  end.

(** The started bit of unit 0 in the flags word. *)
Definition unit0_started (st : msc_state) : bool :=
  Z.testbit (psram_msc_lu_flags st) 0.

(** ** SCSI INQUIRY *)

Definition bytes_of_string (s : string) : list Z :=
  map (fun c => Z.of_N (N_of_ascii c)) (list_ascii_of_string s).

Definition psram_msc_vpd00 : list Z := [0x00; 0x00; 0x00; 2; 0x00; 0x83].

Definition psram_msc_vpd83 : list Z := [0x00; 0x83; 0x00; 0x00].

(** Modelled from the spec: [STANDARD_INQUIRY_DATA_LEN] of usbd_msc_scsi.h,
    which is not part of this file; the design fixes the standard inquiry
    payload at 36 bytes. *)
Definition STANDARD_INQUIRY_DATA_LEN : Z := 36.

(** The array has element type [int8_t]; its bytes are given as stored. *)
Definition psram_msc_inquiry_data : list Z :=
  [0x00; 0x80; 0x02; 0x02; STANDARD_INQUIRY_DATA_LEN - 5; 0x00; 0x00; 0x00]
  ++ bytes_of_string "Coinkite"
  ++ bytes_of_string "COLDCARD"
  ++ bytes_of_string "        "
  ++ bytes_of_string "4.00".

(** [params] is the command block, [data_out] the reply buffer; the result is
    the [int] returned and the reply buffer as left. *)
Definition psram_msc_Inquiry (lun : Z) (params data_out : list Z)
    : Z * list Z :=
  if negb (Z.land (nth 1 params 0) 1 =? 0) then
    let page_code := nth 2 params 0 in
    if page_code =? 0x00 then
      (Z.of_nat (length psram_msc_vpd00), blit psram_msc_vpd00 data_out)
    else if page_code =? 0x83 then
      (Z.of_nat (length psram_msc_vpd83), blit psram_msc_vpd83 data_out)
    else (-1, data_out)
  else if psram_msc_lu_num <=? lun then (-1, data_out)
  else
    let alloc_len := u8 (Z.lor (Z.shiftl (nth 3 params 0) 8) (nth 4 params 0)) in
    let len := Z.min (Z.of_nat (length psram_msc_inquiry_data)) alloc_len in
    (len, blit (firstn (Z.to_nat len) psram_msc_inquiry_data) data_out).

(** The allocation length the host asks for: bytes 3 and 4 of the command
    block, big-endian. *)
Definition requested_allocation_length (params : list Z) : Z :=
  Z.lor (Z.shiftl (nth 3 params 0) 8) (nth 4 params 0).

(** ** Formatting of the serial number *)

Definition hex_digit (d : Z) : ascii :=
  nth (Z.to_nat d) (list_ascii_of_string "0123456789ABCDEF") "F"%char.

(** The digits of [n], most significant first, in front of [acc]; an
    [unsigned int] has at most eight. *)
Fixpoint hex_X (fuel : nat) (n : Z) (acc : string) : string :=
  match fuel with
  | O => acc
  | S fuel' =>
      let acc' := String (hex_digit (n mod 16)) acc in
      if n / 16 =? 0 then acc' else hex_X fuel' (n / 16) acc'
  end.

(** [printf]'s conversion [%02X] of an [int] argument. *)
Definition fmt_02X (x : Z) : string :=
  let s := hex_X 8 (u32 x) EmptyString in
  if (Z.of_nat (String.length s) <? 2) then String "0" s else s.

(** The unique ID at [MP_HAL_UNIQUE_ID_ADDRESS] is a parameter: [id] holds its
    12 bytes.  The sums are computed in [int], as C promotes the operands. *)
Definition serial_hex (id : list Z) : string :=
  (fmt_02X (nth 11 id 0) ++ fmt_02X (nth 10 id 0 + nth 2 id 0)
   ++ fmt_02X (nth 9 id 0) ++ fmt_02X (nth 8 id 0 + nth 0 id 0)
   ++ fmt_02X (nth 7 id 0) ++ fmt_02X (nth 6 id 0))%string.

(** [snprintf(fname, sizeof(fname), "ckcc-....txt", ...)] with [char fname[80]]. *)
Definition snprintf_fname (id : list Z) : string :=
  substring 0 79 ("ckcc-" ++ serial_hex id ++ ".txt")%string.

(** ** The FatFs library boundary

    The filesystem library (lib/oofatfs) is not part of this file.  Its result
    codes and the flags this file passes are those of its public header; its
    behaviour is a parameter of the development. *)

Inductive FRESULT : Type :=
| FR_OK | FR_DISK_ERR | FR_INT_ERR | FR_NOT_READY | FR_NO_FILE | FR_NO_PATH
| FR_INVALID_NAME | FR_DENIED | FR_EXIST | FR_INVALID_OBJECT
| FR_WRITE_PROTECTED | FR_INVALID_DRIVE | FR_NOT_ENABLED | FR_NO_FILESYSTEM
| FR_MKFS_ABORTED | FR_TIMEOUT | FR_LOCKED | FR_NOT_ENOUGH_CORE
| FR_TOO_MANY_OPEN_FILES | FR_INVALID_PARAMETER.

Definition is_FR_OK (r : FRESULT) : bool :=
  match r with FR_OK => true | _ => false end.

Inductive mkfs_opt : Type := FM_FAT | FM_SFD.

Inductive open_mode : Type := FA_READ | FA_WRITE | FA_CREATE_ALWAYS.

(** The library calls this file makes, with the arguments it passes.  The
    volume and file handles are the locals [vfs] and [fp] of the caller; the
    scratch buffer of [f_mkfs] and the byte counter of [f_write] are not used
    afterwards. *)
Inductive ff_call : Type :=
| f_mkfs (opt : list mkfs_opt) (au : Z)
| f_setlabel (label : string)
| f_mount
| f_open (path : string) (mode : list open_mode)
| f_write (buff : string) (btw : Z)
| f_lseek_CREATE_LINKMAP (tbl_size : Z)
| f_close.

(** The fields of the volume object that [clst2sect] reads. *)
Record FATFS : Type := {
  n_fatent : Z;
  database : Z;
  csize : Z
}.

Definition clst2sect (fs : FATFS) (clst : Z) : Z :=
  let clst := u32 (clst - 2) in
  if u32 (n_fatent fs - 2) <=? clst then 0
  else u32 (database fs + u32 (csize fs * clst)).

(** The loop of [psram_mmap_file] over the link map: [n] iterations left,
    iteration number [i]; the two [printf] calls of each iteration.  The
    pointer [ptr] starts at [&mapping[1]] and advances by two per iteration. *)
Fixpoint mmap_loop (fs : FATFS) (mapping : list Z) (n : nat) (i : Z)
    : list printf_call :=
  match n with
  | O => []
  | S n' =>
      let num_clusters := s32 (nth (Z.to_nat (1 + 2 * i)) mapping 0) in
      let cluster := nth (Z.to_nat (2 + 2 * i)) mapping 0 in
      ("[%d] (cl=0x%lx ln=%d) => "%string, [i; cluster; num_clusters])
      :: ("0x%lx\n"%string, [clst2sect fs cluster])
      :: mmap_loop fs mapping n' (i + 1)
  end.

(** What the design asks the resolver to produce from a link map: one
    [(sector, run_length)] per pair, [sector] by the formula of the design. *)
Definition spec_sector (fs : FATFS) (start_cluster : Z) : Z :=
  database fs + csize fs * (start_cluster - 2).

Fixpoint spec_pairs (fs : FATFS) (slots : list Z) (n : nat) {struct n}
    : list (Z * Z) :=
  match n with
  | O => []
  | S n' =>
      match slots with
      | run_length :: start_cluster :: rest =>
          (spec_sector fs start_cluster, run_length) :: spec_pairs fs rest n'
      | _ => []
      end
  end.

Definition spec_physical_ranges (fs : FATFS) (mapping : list Z) : list (Z * Z) :=
  spec_pairs fs (tl mapping) (Z.to_nat ((nth 0 mapping 0 - 1) / 2)).

Definition obj_of_ranges (l : list (Z * Z)) : mp_obj :=
  mp_obj_new_list
    (map (fun r => mp_obj_new_tuple
                     [MP_OBJ_NEW_SMALL_INT (fst r); MP_OBJ_NEW_SMALL_INT (snd r)]) l).

Section FatFs.

(** The library's own state (volume object, open file). *)
Variable L : Type.

(** A library call acts on the region, through the block device it was
    bound to by [psram_init_vfs], and on its own state. *)
Variable ff : ff_call -> mem * L -> FRESULT * (mem * L).

(** The array [mapping] as [f_lseek] left it, and the volume object. *)
Variable cltbl : L -> list Z.
Variable fatfs : L -> FATFS.

Record world : Type := {
  region : mem;
  lib : L;
  calls : list (ff_call * FRESULT);
  console : list printf_call
}.

Definition M (A : Type) : Type := world -> A * world.

Definition ret {A} (a : A) : M A := fun w => (a, w).

Definition bind {A B} (c : M A) (k : A -> M B) : M B :=
  fun w => let (a, w') := c w in k a w'.

Notation "x <- c ;; k" := (bind c (fun x => k))
  (at level 61, c at next level, right associativity).
Notation "c ;;; k" := (bind c (fun _ => k))
  (at level 61, right associativity).

Definition ff_do (c : ff_call) : M FRESULT :=
  fun w =>
    let '(r, (m, l)) := ff c (region w, lib w) in
    (r, {| region := m; lib := l;
           calls := calls w ++ [(c, r)]; console := console w |}).

(** [printf] and [mp_printf(&mp_plat_print, ...)] both write to the console. *)
Definition mp_printf (fmt : string) (args : list Z) : M unit :=
  fun w =>
    (tt, {| region := region w; lib := lib w; calls := calls w;
            console := console w ++ [(fmt, args)] |}).

Definition print_all (l : list printf_call) : M unit :=
  fun w =>
    (tt, {| region := region w; lib := lib w; calls := calls w;
            console := console w ++ l |}).

Definition wipe_contents : M unit :=
  fun w =>
    (tt, {| region := memset (region w) PSRAM_BASE 0x21 (u32 (BLOCK_SIZE * BLOCK_COUNT));
            lib := lib w; calls := calls w; console := console w |}).

Definition psram_wipe_and_setup (id : list Z) : M mp_result :=
  wipe_contents ;;;
  res <- ff_do (f_mkfs [FM_FAT; FM_SFD] BLOCK_SIZE) ;;
  if negb (is_FR_OK res) then
    mp_printf "PSRAM: can't create filesystem\n" [] ;;;
    ret (mp_raise_ValueError None)
  else
    ff_do (f_setlabel "COLDCARD") ;;;
    let fname := snprintf_fname id in
    ff_do (f_open fname [FA_WRITE; FA_CREATE_ALWAYS]) ;;;
    ff_do (f_write (substring 5 12 fname) 12) ;;;
    ff_do f_close ;;;
    ff_do (f_open "serial.txt" [FA_WRITE; FA_CREATE_ALWAYS]) ;;;
    ff_do (f_write (substring 5 12 fname) 12) ;;;
    ff_do f_close ;;;
    ret (Return mp_const_none).

(** Always clear and reset the contents. *)
Definition psram_init (id : list Z) : M mp_result := psram_wipe_and_setup id.

Definition psram_mmap_file (fname : string) : M mp_result :=
  res <- ff_do f_mount ;;
  if negb (is_FR_OK res) then ret (mp_raise_ValueError (Some "unmounted"%string))
  else
    res <- ff_do (f_open fname [FA_READ]) ;;
    if negb (is_FR_OK res) then ret (mp_raise_ValueError (Some "open file"%string))
    else
      rv <- ff_do (f_lseek_CREATE_LINKMAP 64) ;;
      if negb (is_FR_OK rv) then ret (mp_raise_ValueError (Some "lseek"%string))
      else
        fun w =>
          let mapping := cltbl (lib w) in
          let num_used := s32 (u32 (nth 0 mapping 0 - 1) / 2) in
          (mp_printf "[0] = %lu\n" [nth 0 mapping 0] ;;;
           mp_printf "num = %d\n" [num_used] ;;;
           print_all (mmap_loop (fatfs (lib w)) mapping (Z.to_nat num_used) 0) ;;;
           ff_do f_close ;;;
           ret (Return mp_const_none)) w.

End FatFs.

Arguments region {L} _.
Arguments lib {L} _.
Arguments calls {L} _.
Arguments console {L} _.
Arguments Build_world {L} _ _ _ _.
Arguments ff_do {L} ff c _.
Arguments psram_wipe_and_setup {L} ff id _.
Arguments psram_init {L} ff id _.
Arguments psram_mmap_file {L} ff cltbl fatfs fname _.

(** ** Sample environments

    Concrete library behaviours and inputs on which the functions above are
    evaluated. *)

Definition zero_mem : mem := fun _ => 0.

Definition fresh_world : world unit :=
  {| region := zero_mem; lib := tt; calls := []; console := [] |}.

(** A library every call of which succeeds, leaving the region alone. *)
Definition ff_ok (c : ff_call) (w : mem * unit) : FRESULT * (mem * unit) :=
  (FR_OK, w).

(** A library whose [f_write] fails with a disk error. *)
Definition ff_write_fails (c : ff_call) (w : mem * unit)
    : FRESULT * (mem * unit) :=
  match c with
  | f_write _ _ => (FR_DISK_ERR, w)
  | _ => (FR_OK, w)
  end.

Definition sample_id : list Z :=
  [0x10; 0x32; 0x54; 0x76; 0x98; 0xBA; 0xDC; 0xFE; 0x01; 0x23; 0x45; 0x67].

(** The link map of a file held in a single cluster, the first data cluster:
    four slots used, one run of one cluster starting at cluster 2, then the
    terminator. *)
Definition cltbl_single_cluster (_ : unit) : list Z := [4; 1; 2; 0].

Definition fatfs_sample (_ : unit) : FATFS :=
  {| n_fatent := 16340; database := 97; csize := 1 |}.

(** One block of data: the byte values 0, 1, ..., 255, twice. *)
Definition counting_block : list Z :=
  map (fun i => Z.of_nat i mod 256) (seq 0 512).

(** A SCSI INQUIRY command block asking for up to 256 bytes. *)
Definition inquiry_256 : list Z := [0x12; 0x00; 0x00; 0x01; 0x00; 0x00].

(** ** Observations used in the statements *)

Definition is_hex_char (c : ascii) : bool :=
  existsb (Ascii.eqb c) (list_ascii_of_string "0123456789ABCDEF").

Fixpoint all_hex (s : string) : bool :=
  match s with
  | EmptyString => true
  | String c s' => is_hex_char c && all_hex s'
  end.

Definition two_hex (s : string) : bool :=
  match s with
  | String _ (String _ EmptyString) => all_hex s
  | _ => false
  end.

Definition two_or_three_hex (s : string) : bool :=
  match s with
  | String _ (String _ EmptyString) => all_hex s
  | String _ (String _ (String _ EmptyString)) => all_hex s
  | _ => false
  end.



(** The library calls of [psram_wipe_and_setup] once the volume is made. *)
Definition seed_calls (id : list Z) : list ff_call :=
  [ f_setlabel "COLDCARD";
    f_open ("ckcc-" ++ serial_hex id ++ ".txt")%string [FA_WRITE; FA_CREATE_ALWAYS];
    f_write (substring 0 12 (serial_hex id)) 12;
    f_close;
    f_open "serial.txt" [FA_WRITE; FA_CREATE_ALWAYS];
    f_write (substring 0 12 (serial_hex id)) 12;
    f_close ].

(** The arguments of a handler call are [uint8_t] values. *)
Definition lu_op_wf (op : lu_op) : Prop :=
  match op with
  | Init lun | IsReady lun | IsWriteProtected lun => 0 <= lun < 2 ^ 8
  | StartStopUnit lun x | PreventAllowMediumRemoval lun x =>
      0 <= lun < 2 ^ 8 /\ 0 <= x < 2 ^ 8
  end.

(** The addresses of the PSRAM region. *)
Definition in_region (a : Z) : Prop :=
  PSRAM_BASE <= a < PSRAM_BASE + PSRAM_SIZE.

(** A memory that differs from [zero_mem] only outside the region. *)
Definition stray_mem : mem :=
  fun a => if a <? PSRAM_BASE then 0xA5 else 0.

(** The requests [psram_readblocks] and [psram_writeblocks] serve: a buffer
    of whole blocks, at least one, at a block number below BLOCK_COUNT, the
    block number plus the length in bytes staying below BLOCK_COUNT. *)
Definition blocks_request_ok (block_num : Z) (buf : list Z) : bool :=
  let len := Z.of_nat (length buf) in
  (0 <? len) && (len mod BLOCK_SIZE =? 0)
  && (u32 block_num <? BLOCK_COUNT) && (u32 block_num + len <? BLOCK_COUNT).

(** The value of a hexadecimal digit, and of a string of them. *)
Fixpoint index_of (c : ascii) (l : list ascii) : Z :=
  match l with
  | [] => 0
  | x :: l' => if Ascii.eqb c x then 0 else 1 + index_of c l'
  end.

Definition digit_value (c : ascii) : Z :=
  index_of c (list_ascii_of_string "0123456789ABCDEF").

Fixpoint hex_value (s : string) : Z :=
  match s with
  | EmptyString => 0
  | String c s' => digit_value c * 16 ^ Z.of_nat (String.length s') + hex_value s'
  end.

(** A volume whose sector numbers fit 32 bits and whose data area does not
    start at sector 0. *)
Definition fatfs_wf (fs : FATFS) : Prop :=
  1 <= database fs /\ 1 <= csize fs /\ 2 <= n_fatent fs < 2 ^ 32
  /\ database fs + csize fs * (n_fatent fs - 2) < 2 ^ 32.


(** * Properties *)

(** ** Machine integers *)

Lemma u32_small (x : Z) : 0 <= x < 2 ^ 32 -> u32 x = x.
Proof. intros H. unfold u32. now apply Z.mod_small. Qed.

Lemma u16_small (x : Z) : 0 <= x < 2 ^ 16 -> u16 x = x.
Proof. intros H. unfold u16. now apply Z.mod_small. Qed.

Lemma u16_range (x : Z) : 0 <= u16 x < 2 ^ 16.
Proof. unfold u16. apply Z.mod_pos_bound. lia. Qed.

Lemma u32_range (x : Z) : 0 <= u32 x < 2 ^ 32.
Proof. unfold u32. apply Z.mod_pos_bound. lia. Qed.

Lemma Some_inj (A : Type) (x y : A) : Some x = Some y -> x = y.
Proof. intros H. now inversion H. Qed.

(** ** Memory *)

Lemma length_load_bytes (m : mem) (p n : Z) :
  length (load_bytes m p n) = Z.to_nat n.
Proof. unfold load_bytes. now rewrite length_map, length_seq. Qed.

Lemma nth_load_bytes (m : mem) (p n : Z) (i : nat) :
  (i < Z.to_nat n)%nat -> nth i (load_bytes m p n) 0 = m (p + Z.of_nat i).
Proof.
  intros Hi. unfold load_bytes.
  set (f := fun j : nat => m (p + Z.of_nat j)).
  transitivity (nth i (map f (seq 0 (Z.to_nat n))) (f 0%nat)).
  - apply nth_indep. now rewrite length_map, length_seq.
  - rewrite map_nth, seq_nth by assumption. reflexivity.
Qed.

Lemma store_bytes_inside (m : mem) (p : Z) (src : list Z) (n : Z) (i : nat) :
  Z.of_nat i < n -> store_bytes m p src n (p + Z.of_nat i) = nth i src 0.
Proof.
  intros Hi. unfold store_bytes.
  replace (p <=? p + Z.of_nat i) with true by (symmetry; apply Z.leb_le; lia).
  replace (p + Z.of_nat i <? p + n) with true by (symmetry; apply Z.ltb_lt; lia).
  cbn [andb]. f_equal. lia.
Qed.

Lemma store_bytes_outside (m : mem) (p : Z) (src : list Z) (n a : Z) :
  ~ (p <= a < p + n) -> store_bytes m p src n a = m a.
Proof.
  intros Ha. unfold store_bytes.
  destruct (p <=? a) eqn:E1; destruct (a <? p + n) eqn:E2; cbn [andb];
    try reflexivity.
  apply Z.leb_le in E1. apply Z.ltb_lt in E2. lia.
Qed.

(** Reading back what was just stored gives the stored bytes. *)
Lemma load_store_bytes (m : mem) (p : Z) (src : list Z) :
  load_bytes (store_bytes m p src (Z.of_nat (length src))) p
             (Z.of_nat (length src)) = src.
Proof.
  apply (nth_ext _ _ 0 0).
  - now rewrite length_load_bytes, Nat2Z.id.
  - intros i Hi. rewrite length_load_bytes, Nat2Z.id in Hi.
    rewrite nth_load_bytes by now rewrite Nat2Z.id.
    apply store_bytes_inside. lia.
Qed.

Lemma memset_inside (m : mem) (p c n a : Z) :
  p <= a < p + n -> memset m p c n a = c.
Proof.
  intros Ha. unfold memset.
  replace (p <=? a) with true by (symmetry; apply Z.leb_le; lia).
  replace (a <? p + n) with true by (symmetry; apply Z.ltb_lt; lia).
  reflexivity.
Qed.

Lemma memset_outside (m : mem) (p c n a : Z) :
  ~ (p <= a < p + n) -> memset m p c n a = m a.
Proof.
  intros Ha. unfold memset.
  destruct (p <=? a) eqn:E1; destruct (a <? p + n) eqn:E2; cbn [andb];
    try reflexivity.
  apply Z.leb_le in E1. apply Z.ltb_lt in E2. lia.
Qed.

(** ** The address validator *)

(** The two tests of [block_to_ptr] on arguments in the range of their types:
    no wrap-around occurs in either. *)
Lemma block_to_ptr_cases (blk num_blk : Z) :
  0 <= blk < 2 ^ 32 -> 0 <= num_blk < 2 ^ 16 ->
  (blk < BLOCK_COUNT /\ blk + num_blk * BLOCK_SIZE < BLOCK_COUNT
   /\ block_to_ptr blk num_blk = Some (PSRAM_BASE + blk * BLOCK_SIZE))
  \/ (~ (blk < BLOCK_COUNT /\ blk + num_blk * BLOCK_SIZE < BLOCK_COUNT)
      /\ block_to_ptr blk num_blk = None).
Proof.
  intros Hblk Hnum. unfold block_to_ptr, BLOCK_COUNT, BLOCK_SIZE in *.
  destruct (16384 <=? blk) eqn:E1.
  - right. apply Z.leb_le in E1. split; [lia | reflexivity].
  - apply Z.leb_gt in E1.
    rewrite (u32_small (num_blk * 512)) by lia.
    rewrite (u32_small (blk + num_blk * 512)) by lia.
    rewrite (u32_small (blk * 512)) by lia.
    destruct (16384 <=? blk + num_blk * 512) eqn:E2.
    + right. apply Z.leb_le in E2. split; [lia | reflexivity].
    + left. apply Z.leb_gt in E2. repeat split; lia.
Qed.

Lemma block_to_ptr_Some (blk num_blk p : Z) :
  0 <= blk < 2 ^ 32 -> 0 <= num_blk < 2 ^ 16 ->
  block_to_ptr blk num_blk = Some p ->
  blk < BLOCK_COUNT /\ blk + num_blk * BLOCK_SIZE < BLOCK_COUNT
  /\ p = PSRAM_BASE + blk * BLOCK_SIZE.
Proof.
  intros Hblk Hnum H.
  destruct (block_to_ptr_cases blk num_blk Hblk Hnum) as [(A & B & C) | (A & C)];
    rewrite C in H; [apply Some_inj in H | discriminate].
  auto.
Qed.

(** An accepted request counts at most 31 blocks. *)
Lemma block_to_ptr_at_most_31 (blk num_blk p : Z) :
  0 <= blk < 2 ^ 32 -> 0 <= num_blk < 2 ^ 16 ->
  block_to_ptr blk num_blk = Some p -> num_blk <= 31.
Proof.
  intros Hblk Hnum H.
  destruct (block_to_ptr_Some _ _ _ Hblk Hnum H) as (A & B & _).
  unfold BLOCK_COUNT, BLOCK_SIZE in *. lia.
Qed.

(** A single block is accepted exactly below index 15872. *)
Lemma block_to_ptr_single (blk : Z) :
  0 <= blk < 2 ^ 32 ->
  block_to_ptr blk 1 <> None <-> blk < 15872.
Proof.
  intros Hblk.
  destruct (block_to_ptr_cases blk 1 Hblk ltac:(lia)) as [(A & B & C) | (A & C)];
    rewrite C; unfold BLOCK_COUNT, BLOCK_SIZE in *; split; intros H;
    try lia; try discriminate; try congruence.
Qed.

(** C1: on a request (block_index, block_count) of its argument types, the
    validator [block_to_ptr] accepts if and only if block_index < BLOCK_COUNT
    and block_index + block_count*BLOCK_SIZE < BLOCK_COUNT; an accepted
    request resolves to the start of the byte span
    [block_index*BLOCK_SIZE, block_index*BLOCK_SIZE + block_count*BLOCK_SIZE),
    which lies within [0, BLOCK_COUNT*BLOCK_SIZE); on a rejected request every
    transfer entry point fails and leaves its buffer and the memory as they
    were. *)
Theorem block_to_ptr_accepts_iff (blk num_blk : Z)
    (Hblk : 0 <= blk < 2 ^ 32) (Hnum : 0 <= num_blk < 2 ^ 16) :
  (block_to_ptr blk num_blk <> None
   <-> blk < BLOCK_COUNT /\ blk + num_blk * BLOCK_SIZE < BLOCK_COUNT)
  /\ (forall p, block_to_ptr blk num_blk = Some p ->
        p = PSRAM_BASE + blk * BLOCK_SIZE
        /\ 0 <= blk * BLOCK_SIZE
        /\ blk * BLOCK_SIZE + num_blk * BLOCK_SIZE <= BLOCK_COUNT * BLOCK_SIZE
        /\ BLOCK_COUNT * BLOCK_SIZE = PSRAM_SIZE)
  /\ (block_to_ptr blk num_blk = None ->
        forall lun buf m,
          psram_msc_Read lun buf blk num_blk m = (-1, buf)
          /\ psram_msc_Write lun buf blk num_blk m = (-1, m)
          /\ direct_psram_read_blocks buf blk num_blk m = (- MP_EIO, buf)
          /\ direct_psram_write_blocks buf blk num_blk m = (- MP_EIO, m)).
Proof.
  destruct (block_to_ptr_cases blk num_blk Hblk Hnum) as [(A & B & C) | (A & C)].
  - split; [| split].
    + rewrite C. split; [auto | discriminate].
    + intros p Hp. rewrite C in Hp. apply Some_inj in Hp. subst p.
      unfold BLOCK_COUNT, BLOCK_SIZE, PSRAM_SIZE in *. repeat split; lia.
    + rewrite C. discriminate.
  - split; [| split].
    + rewrite C. split; [congruence | intros H; now elim A].
    + rewrite C. discriminate.
    + intros _ lun buf m.
      unfold psram_msc_Read, psram_msc_Write, direct_psram_read_blocks,
        direct_psram_write_blocks.
      rewrite (u16_small num_blk) by assumption. rewrite C.
      destruct (psram_msc_lu_num <=? lun); auto.
Qed.

(** The validator at the edge of what it accepts. *)
Lemma block_to_ptr_accepts_iff_witness :
  (block_to_ptr 15871 1 <> None
   <-> 15871 < BLOCK_COUNT /\ 15871 + 1 * BLOCK_SIZE < BLOCK_COUNT)
  /\ block_to_ptr 15871 1 = Some (PSRAM_BASE + 15871 * BLOCK_SIZE)
  /\ block_to_ptr 15872 1 = None.
Proof.
  split; [| split; reflexivity].
  apply (block_to_ptr_accepts_iff 15871 1); lia.
Defined.

(** ** SCSI write followed by read *)

(** C2: for every block range the validator accepts and every pattern [P] of
    that many bytes, a SCSI write of [P] to the range succeeds, and a SCSI
    read of the same range afterwards succeeds and delivers [P] into the
    caller's buffer (what lies behind the transfer in the buffer is kept). *)
Theorem msc_write_read_roundtrip (lun blk n p : Z) (P buf : list Z) (m : mem)
    (Hlun : 0 <= lun < psram_msc_lu_num)
    (Hblk : 0 <= blk < 2 ^ 32) (Hn : 0 <= n < 2 ^ 16)
    (Hacc : block_to_ptr blk n = Some p)
    (HP : Z.of_nat (length P) = n * BLOCK_SIZE) :
  fst (psram_msc_Write lun P blk n m) = 0
  /\ psram_msc_Read lun buf blk n (snd (psram_msc_Write lun P blk n m))
     = (0, P ++ skipn (length P) buf).
Proof.
  unfold psram_msc_Write, psram_msc_Read.
  replace (psram_msc_lu_num <=? lun) with false
    by (symmetry; apply Z.leb_gt; lia).
  rewrite Hacc. cbn [fst snd]. split; [reflexivity |].
  assert (Hlen : u32 (n * BLOCK_SIZE) = Z.of_nat (length P)).
  { rewrite HP. apply u32_small. unfold BLOCK_SIZE. lia. }
  rewrite Hlen, load_store_bytes. reflexivity.
Qed.

(** One block of a counting pattern written to block 3 and read back into a
    buffer of one block. *)
Lemma msc_write_read_roundtrip_witness :
  fst (psram_msc_Write 0 counting_block 3 1 zero_mem) = 0
  /\ psram_msc_Read 0 (repeat 0 512) 3 1
       (snd (psram_msc_Write 0 counting_block 3 1 zero_mem))
     = (0, counting_block ++ skipn (length counting_block) (repeat 0 512)).
Proof.
  apply (msc_write_read_roundtrip 0 3 1 (PSRAM_BASE + 3 * BLOCK_SIZE)
           counting_block (repeat 0 512) zero_mem).
  - unfold psram_msc_lu_num. lia.
  - lia.
  - lia.
  - reflexivity.
  - reflexivity.
Defined.

(** ** The transfer limit *)

(** The SCSI and MicroPython entry points hand [block_to_ptr] the count they
    transfer: whatever they accept moves at most 31 blocks. *)
Lemma msc_transfers_at_most_31 (lun blk n : Z) (buf : list Z) (m : mem) :
  0 <= blk < 2 ^ 32 -> 0 <= n < 2 ^ 16 ->
  (fst (psram_msc_Read lun buf blk n m) = 0 -> n <= 31)
  /\ (fst (psram_msc_Write lun buf blk n m) = 0 -> n <= 31).
Proof.
  intros Hblk Hn. unfold psram_msc_Read, psram_msc_Write.
  destruct (psram_msc_lu_num <=? lun); cbn [fst]; [split; discriminate |].
  destruct (block_to_ptr blk n) as [p |] eqn:E; cbn [fst];
    [| split; discriminate].
  split; intros _; exact (block_to_ptr_at_most_31 _ _ _ Hblk Hn E).
Qed.

Lemma blocks_length_accepted (block_num : Z) (buf : list Z) (m : mem) :
  fst (psram_readblocks block_num buf m) = Return (MP_OBJ_NEW_SMALL_INT 0)
  \/ fst (psram_writeblocks block_num buf m) = Return (MP_OBJ_NEW_SMALL_INT 0) ->
  Z.of_nat (length buf) <= 31 * BLOCK_SIZE.
Proof.
  unfold psram_readblocks, psram_writeblocks.
  set (len := Z.of_nat (length buf)).
  pose proof (u16_range (len / BLOCK_SIZE)) as R.
  set (k := u16 (len / BLOCK_SIZE)) in *.
  destruct (k <? 1) eqn:E1; cbn [fst]; [intros [H | H]; discriminate |].
  destruct (u32 (k * BLOCK_SIZE) =? len) eqn:E2;
    cbn [negb fst]; [| intros [H | H]; discriminate].
  destruct (block_to_ptr (u32 block_num) k) as [p |] eqn:E3;
    cbn [fst]; [| intros [H | H]; discriminate].
  intros _.
  pose proof (block_to_ptr_at_most_31 _ _ _ (u32_range block_num) R E3) as B.
  apply Z.eqb_eq in E2. rewrite u32_small in E2 by (unfold BLOCK_SIZE; lia).
  unfold BLOCK_SIZE in *. lia.
Qed.

(** No single-block request reaches the last 512 blocks of the device,
    whichever entry point it comes through. *)
Lemma last_512_blocks_unreachable (blk : Z) (buf : list Z) (m : mem) :
  15872 <= blk < 2 ^ 32 ->
  block_to_ptr blk 1 = None
  /\ psram_msc_Read 0 buf blk 1 m = (-1, buf)
  /\ psram_msc_Write 0 buf blk 1 m = (-1, m)
  /\ direct_psram_read_blocks buf blk 1 m = (- MP_EIO, buf)
  /\ direct_psram_write_blocks buf blk 1 m = (- MP_EIO, m)
  /\ psram_ioctl MP_BLOCKDEV_IOCTL_BLOCK_ERASE blk m = (mp_const_none, m).
Proof.
  intros Hblk.
  assert (E : block_to_ptr blk 1 = None).
  { destruct (block_to_ptr blk 1) eqn:E; [| reflexivity].
    assert (block_to_ptr blk 1 <> None) as H by congruence.
    apply block_to_ptr_single in H; lia. }
  unfold psram_msc_Read, psram_msc_Write, direct_psram_read_blocks,
    direct_psram_write_blocks, psram_ioctl.
  rewrite (u32_small blk) by lia.
  change (u16 1) with 1. rewrite E. cbn. auto 6.
Qed.

(** The capacity both interfaces advertise is the full 16384 blocks. *)
Lemma advertised_capacity (lun arg : Z) (m : mem) :
  psram_msc_GetCapacity lun = (0, (16384, 512))
  /\ fst (psram_ioctl MP_BLOCKDEV_IOCTL_BLOCK_COUNT arg m)
     = MP_OBJ_NEW_SMALL_INT 16384
  /\ fst (psram_ioctl MP_BLOCKDEV_IOCTL_BLOCK_SIZE arg m)
     = MP_OBJ_NEW_SMALL_INT 512.
Proof. repeat split. Qed.

(** The raw entry points agree with the validator as long as the count fits
    16 bits: what they accept then moves at most 31 blocks. *)
Lemma direct_transfers_at_most_31 (blk n : Z) (buf : list Z) (m : mem) :
  0 <= blk < 2 ^ 32 -> 0 <= n < 2 ^ 16 ->
  (fst (direct_psram_read_blocks buf blk n m) = 0 -> n <= 31)
  /\ (fst (direct_psram_write_blocks buf blk n m) = 0 -> n <= 31).
Proof.
  intros Hblk Hn. unfold direct_psram_read_blocks, direct_psram_write_blocks.
  rewrite (u16_small n) by assumption.
  destruct (block_to_ptr blk n) as [p |] eqn:E; cbn [fst];
    [| split; discriminate].
  split; intros _; exact (block_to_ptr_at_most_31 _ _ _ Hblk Hn E).
Qed.

(** C3: the raw read entry point with a count of 65536 blocks.  The count is
    narrowed to 16 bits for the validator, which sees 0 blocks and accepts;
    the copy then moves 65536 blocks, which is more than 31 blocks and more
    than the whole region. *)
Theorem direct_read_blocks_count_narrowed (dest : list Z) (m : mem) :
  block_to_ptr 0 (u16 65536) = Some PSRAM_BASE
  /\ direct_psram_read_blocks dest 0 65536 m
     = (0, blit (load_bytes m PSRAM_BASE (65536 * BLOCK_SIZE)) dest)
  /\ Z.of_nat (length (load_bytes m PSRAM_BASE (65536 * BLOCK_SIZE)))
     = 65536 * BLOCK_SIZE
  /\ 31 * BLOCK_SIZE < 65536 * BLOCK_SIZE
  /\ PSRAM_SIZE < 65536 * BLOCK_SIZE.
Proof.
  assert (E : block_to_ptr 0 (u16 65536) = Some PSRAM_BASE) by reflexivity.
  split; [exact E |]. split; [| split].
  - unfold direct_psram_read_blocks. rewrite E.
    rewrite (u32_small (65536 * BLOCK_SIZE)) by (unfold BLOCK_SIZE; lia).
    reflexivity.
  - rewrite length_load_bytes. apply Z2Nat.id. unfold BLOCK_SIZE. lia.
  - unfold BLOCK_SIZE, PSRAM_SIZE. lia.
Qed.

(** ** Erase *)

(** C8: the erase control operation on a block index.  When the validator
    accepts the index for a single block, the result is success (small int 0)
    and each of the 512 bytes of that block is 0xFF afterwards, every other
    byte being as before; when the validator rejects it, the result is the
    neutral [None] and the memory is as before. *)
Theorem ioctl_erase_block (arg : Z) (m : mem) :
  match block_to_ptr (u32 arg) 1 with
  | Some p =>
      p = PSRAM_BASE + u32 arg * BLOCK_SIZE
      /\ fst (psram_ioctl MP_BLOCKDEV_IOCTL_BLOCK_ERASE arg m)
         = MP_OBJ_NEW_SMALL_INT 0
      /\ (forall i, 0 <= i < 512 ->
            snd (psram_ioctl MP_BLOCKDEV_IOCTL_BLOCK_ERASE arg m) (p + i) = 0xFF)
      /\ (forall a, ~ (p <= a < p + 512) ->
            snd (psram_ioctl MP_BLOCKDEV_IOCTL_BLOCK_ERASE arg m) a = m a)
  | None =>
      psram_ioctl MP_BLOCKDEV_IOCTL_BLOCK_ERASE arg m = (mp_const_none, m)
  end.
Proof.
  unfold psram_ioctl.
  destruct (block_to_ptr (u32 arg) 1) as [p |] eqn:E; [| reflexivity].
  cbn [fst snd]. split; [| split; [reflexivity | split]].
  - now apply (block_to_ptr_Some (u32 arg) 1 p (u32_range arg) ltac:(lia)).
  - intros i Hi. apply memset_inside. unfold BLOCK_SIZE. lia.
  - intros a Ha. apply memset_outside. exact Ha.
Qed.

(** Erase of block 7, which is accepted, and of block 16000, which is not. *)
Example ioctl_erase_block_7 :
  fst (psram_ioctl MP_BLOCKDEV_IOCTL_BLOCK_ERASE 7 zero_mem) = MP_OBJ_NEW_SMALL_INT 0
  /\ load_bytes (snd (psram_ioctl MP_BLOCKDEV_IOCTL_BLOCK_ERASE 7 zero_mem))
       (PSRAM_BASE + 7 * BLOCK_SIZE - 1) 3 = [0; 0xFF; 0xFF]
  /\ load_bytes (snd (psram_ioctl MP_BLOCKDEV_IOCTL_BLOCK_ERASE 7 zero_mem))
       (PSRAM_BASE + 8 * BLOCK_SIZE - 2) 3 = [0xFF; 0xFF; 0]
  /\ fst (psram_ioctl MP_BLOCKDEV_IOCTL_BLOCK_ERASE 16000 zero_mem) = mp_const_none.
Proof. repeat split; reflexivity. Qed.

(** ** Buffer lengths of the block device interface *)

(** C10: [psram_readblocks] and [psram_writeblocks] raise [ValueError], the
    buffer and the memory being left as they were, whenever the length of the
    buffer is zero or not a multiple of BLOCK_SIZE. *)
Theorem blocks_reject_bad_length (block_num : Z) (buf : list Z) (m : mem)
    (Hlen : length buf = 0%nat \/ Z.of_nat (length buf) mod BLOCK_SIZE <> 0) :
  psram_readblocks block_num buf m = (mp_raise_ValueError None, buf)
  /\ psram_writeblocks block_num buf m = (mp_raise_ValueError None, m).
Proof.
  unfold psram_readblocks, psram_writeblocks.
  set (len := Z.of_nat (length buf)) in *.
  assert (H0 : length buf = 0%nat -> u16 (len / BLOCK_SIZE) = 0).
  { intros E. subst len. rewrite E. reflexivity. }
  pose proof (u16_range (len / BLOCK_SIZE)) as R.
  set (k := u16 (len / BLOCK_SIZE)) in *.
  destruct (k <? 1) eqn:E1; [split; reflexivity |].
  apply Z.ltb_ge in E1.
  rewrite u32_small by (unfold BLOCK_SIZE; lia).
  destruct (k * BLOCK_SIZE =? len) eqn:E2; [| split; reflexivity].
  exfalso. apply Z.eqb_eq in E2. destruct Hlen as [E | Hmod].
  - specialize (H0 E). lia.
  - apply Hmod. rewrite <- E2. apply Z.mod_mul. unfold BLOCK_SIZE. lia.
Qed.

(** The scenario of the design: a buffer of 1000 bytes at block 0. *)
Lemma blocks_reject_bad_length_witness :
  psram_readblocks 0 (repeat 0 1000) zero_mem
    = (mp_raise_ValueError None, repeat 0 1000)
  /\ psram_writeblocks 0 (repeat 0 1000) zero_mem
    = (mp_raise_ValueError None, zero_mem).
Proof.
  apply (blocks_reject_bad_length 0 (repeat 0 1000) zero_mem).
  right. rewrite repeat_length. vm_compute. discriminate.
Defined.

(** ** The logical unit state *)

Lemma bit0_u16_lor (f x : Z) :
  Z.testbit (u16 (Z.lor f x)) 0 = Z.testbit f 0 || Z.testbit x 0.
Proof.
  unfold u16. rewrite Z.mod_pow2_bits_low by lia. apply Z.lor_spec.
Qed.

Lemma bit0_u16_land_lnot (f x : Z) :
  Z.testbit (u16 (Z.land f (Z.lnot x))) 0 = Z.testbit f 0 && negb (Z.testbit x 0).
Proof.
  unfold u16. rewrite Z.mod_pow2_bits_low by lia.
  rewrite Z.land_spec, Z.lnot_spec by lia. reflexivity.
Qed.

(** A flag of a unit below 0 (no such unit exists) would be shifted out. *)
Lemma bit0_shifted_flag (lun : Z) :
  lun < 0 -> Z.testbit (Z.shiftl FLAGS_STARTED (lun * 2)) 0 = false.
Proof.
  intros H. rewrite Z.shiftl_spec by lia. unfold FLAGS_STARTED.
  destruct (0 - lun * 2) eqn:E; try lia. reflexivity.
Qed.

Lemma land_1_bit0 (f : Z) : negb (Z.land f 1 =? 0) = Z.testbit f 0.
Proof.
  change 1 with (Z.ones 1). rewrite Z.land_ones by lia.
  change (2 ^ 1) with 2. rewrite <- Z.bit0_mod.
  now destruct (Z.testbit f 0).
Qed.

Lemma lu_flag_is_set_started (st : msc_state) :
  lu_flag_is_set 0 FLAGS_STARTED st = unit0_started st.
Proof. unfold lu_flag_is_set, unit0_started. apply land_1_bit0. Qed.

Lemma IsReady_unit0 (st : msc_state) :
  psram_msc_IsReady 0 st = ((if unit0_started st then 0 else -1), st).
Proof.
  unfold psram_msc_IsReady. cbn [psram_msc_lu_num Z.leb Z.compare].
  now rewrite lu_flag_is_set_started.
Qed.

(** What each call does to the started bit of unit 0. *)
Lemma run_op_started (op : lu_op) (st : msc_state) :
  unit0_started (snd (run_op op st))
  = if starts_unit0 op then true
    else if stops_unit0 op then false
    else unit0_started st.
Proof.
  destruct op as [lun | lun | lun | lun started | lun param];
    cbn [run_op starts_unit0 stops_unit0].
  - unfold psram_msc_Init. destruct (lun =? 0); cbn [negb snd]; [| reflexivity].
    unfold unit0_started, lu_flag_clr, lu_flag_set, set_flags.
    cbn [psram_msc_lu_flags]. rewrite bit0_u16_land_lnot, bit0_u16_lor.
    cbn. now rewrite orb_true_r.
  - unfold psram_msc_IsReady. now destruct (psram_msc_lu_num <=? lun).
  - unfold psram_msc_IsWriteProtected. now destruct (psram_msc_lu_num <=? lun).
  - unfold psram_msc_StartStopUnit, psram_msc_lu_num.
    destruct (1 <=? lun) eqn:E1.
    + apply Z.leb_le in E1.
      replace (lun =? 0) with false by (symmetry; apply Z.eqb_neq; lia).
      reflexivity.
    + apply Z.leb_gt in E1.
      unfold unit0_started, lu_flag_clr, lu_flag_set, set_flags, printf.
      destruct (lun =? 0) eqn:E0.
      * apply Z.eqb_eq in E0. subst lun.
        destruct (started =? 0); cbn [negb andb snd psram_msc_lu_flags].
        -- rewrite bit0_u16_land_lnot. cbn. apply andb_false_r.
        -- rewrite bit0_u16_lor. cbn. apply orb_true_r.
      * apply Z.eqb_neq in E0.
        assert (Hs : Z.testbit (Z.shiftl FLAGS_STARTED (lun * 2)) 0 = false)
          by (apply bit0_shifted_flag; lia).
        destruct (started =? 0); cbn [negb andb snd psram_msc_lu_flags].
        -- rewrite bit0_u16_land_lnot, Hs. cbn. apply andb_true_r.
        -- rewrite bit0_u16_lor, Hs. apply orb_false_r.
  - reflexivity.
Qed.

Lemma run_ops_cons (op : lu_op) (ops : list lu_op) (st : msc_state) :
  run_ops (op :: ops) st = run_ops ops (snd (run_op op st)).
Proof. reflexivity. Qed.

(** Calls none of which starts unit 0 leave a stopped unit stopped. *)
Lemma run_ops_stays_stopped (ops : list lu_op) :
  forall st, existsb starts_unit0 ops = false ->
  unit0_started st = false -> unit0_started (run_ops ops st) = false.
Proof.
  induction ops as [| op ops IH]; intros st Hex Hst; [exact Hst |].
  cbn [existsb] in Hex. apply orb_false_elim in Hex as [Hop Hrest].
  rewrite run_ops_cons. apply IH; [exact Hrest |].
  rewrite run_op_started, Hop. now destruct (stops_unit0 op).
Qed.

(** Calls none of which stops unit 0 leave a started unit started. *)
Lemma run_ops_stays_started (ops : list lu_op) :
  forall st, existsb stops_unit0 ops = false ->
  unit0_started st = true -> unit0_started (run_ops ops st) = true.
Proof.
  induction ops as [| op ops IH]; intros st Hex Hst; [exact Hst |].
  cbn [existsb] in Hex. apply orb_false_elim in Hex as [Hop Hrest].
  rewrite run_ops_cons. apply IH; [exact Hrest |].
  rewrite run_op_started, Hop. now destruct (starts_unit0 op).
Qed.

(** C4, as the code has it: on an unsupported unit index (any index from 1
    up) no handler changes the flags word; [psram_msc_IsReady],
    [psram_msc_IsWriteProtected] and [psram_msc_StartStopUnit] return the
    error status -1 and leave the state alone; [psram_msc_Init] leaves the
    state alone and returns 0, and [psram_msc_PreventAllowMediumRemoval]
    prints its line and returns 0, on that unit as on unit 0. *)
Theorem unsupported_unit_keeps_flags (lun : Z) (st : msc_state)
    (Hlun : 1 <= lun) :
  (forall op, In op [Init lun; IsReady lun; IsWriteProtected lun] ->
     snd (run_op op st) = st)
  /\ (forall x op, In op [StartStopUnit lun x; PreventAllowMediumRemoval lun x] ->
        psram_msc_lu_flags (snd (run_op op st)) = psram_msc_lu_flags st)
  /\ psram_msc_IsReady lun st = (-1, st)
  /\ psram_msc_IsWriteProtected lun st = (-1, st)
  /\ (forall started, psram_msc_StartStopUnit lun started st = (-1, st))
  /\ psram_msc_Init lun st = (0, st)
  /\ (forall param,
        fst (psram_msc_PreventAllowMediumRemoval lun param st) = 0
        /\ fst (psram_msc_PreventAllowMediumRemoval 0 param st) = 0).
Proof.
  assert (E1 : (psram_msc_lu_num <=? lun) = true)
    by (apply Z.leb_le; unfold psram_msc_lu_num; lia).
  assert (E0 : (lun =? 0) = false) by (apply Z.eqb_neq; lia).
  assert (HR : psram_msc_IsReady lun st = (-1, st))
    by (unfold psram_msc_IsReady; now rewrite E1).
  assert (HW : psram_msc_IsWriteProtected lun st = (-1, st))
    by (unfold psram_msc_IsWriteProtected; now rewrite E1).
  assert (HS : forall started, psram_msc_StartStopUnit lun started st = (-1, st))
    by (intros started; unfold psram_msc_StartStopUnit; now rewrite E1).
  assert (HI : psram_msc_Init lun st = (0, st))
    by (unfold psram_msc_Init; now rewrite E0).
  repeat split; auto.
  - intros op [<- | [<- | [<- | []]]]; cbn [run_op];
      [now rewrite HI | now rewrite HR | now rewrite HW].
  - intros x op [<- | [<- | []]]; cbn [run_op];
      [now rewrite HS | reflexivity].
Qed.

Lemma unsupported_unit_keeps_flags_witness :
  psram_msc_IsReady 1 msc_initial = (-1, msc_initial)
  /\ psram_msc_Init 1 msc_initial = (0, msc_initial).
Proof.
  pose proof (unsupported_unit_keeps_flags 1 msc_initial ltac:(lia))
    as (_ & _ & HR & _ & _ & HI & _).
  exact (conj HR HI).
Defined.

(** C4, as stated, fails: [psram_msc_Init] on unit 1 returns 0, the status it
    returns on unit 0, not an error; so does the medium-removal handler. *)
Lemma init_unsupported_unit_returns_success :
  fst (psram_msc_Init 1 msc_initial) = 0
  /\ fst (psram_msc_Init 1 msc_initial) = fst (psram_msc_Init 0 msc_initial)
  /\ ~ fst (psram_msc_Init 1 msc_initial) < 0
  /\ fst (psram_msc_PreventAllowMediumRemoval 1 0 msc_initial) = 0.
Proof. cbn. repeat split; lia. Qed.

(** C5: in the initial state unit 0 is not ready, and stays so through any
    calls that are neither [init(0)] nor [set_started(0, true)]; after either
    of those it is ready, and stays so through any calls that are not
    [set_started(0, false)]; after [set_started(0, false)] it is not ready,
    until started again; and [psram_msc_IsReady] leaves the state as it
    found it. *)
Theorem is_ready_follows_start_stop :
  psram_msc_IsReady 0 msc_initial = (-1, msc_initial)
  /\ (forall ops, existsb starts_unit0 ops = false ->
        fst (psram_msc_IsReady 0 (run_ops ops msc_initial)) = -1)
  /\ (forall st op ops, starts_unit0 op = true ->
        existsb stops_unit0 ops = false ->
        fst (psram_msc_IsReady 0 (run_ops (op :: ops) st)) = 0)
  /\ (forall st op ops, stops_unit0 op = true ->
        existsb starts_unit0 ops = false ->
        fst (psram_msc_IsReady 0 (run_ops (op :: ops) st)) = -1)
  /\ (forall lun st, snd (psram_msc_IsReady lun st) = st).
Proof.
  split; [reflexivity |]. split; [| split; [| split]].
  - intros ops Hex. rewrite IsReady_unit0. cbn [fst].
    now rewrite (run_ops_stays_stopped ops msc_initial Hex eq_refl).
  - intros st op ops Hop Hex. rewrite IsReady_unit0, run_ops_cons. cbn [fst].
    rewrite (run_ops_stays_started ops _ Hex); [reflexivity |].
    now rewrite run_op_started, Hop.
  - intros st op ops Hop Hex. rewrite IsReady_unit0, run_ops_cons. cbn [fst].
    rewrite (run_ops_stays_stopped ops _ Hex); [reflexivity |].
    rewrite run_op_started, Hop.
    destruct op; cbn in Hop |- *; try discriminate.
    apply andb_prop in Hop as [-> ->]. reflexivity.
  - intros lun st. unfold psram_msc_IsReady.
    now destruct (psram_msc_lu_num <=? lun).
Qed.

(** A run of the unit: polled, started by [init], polled, stopped, started
    again; calls on unit 1 in between change nothing. *)
Example is_ready_run :
  map (fun ops => fst (psram_msc_IsReady 0 (run_ops ops msc_initial)))
    [ [];
      [IsReady 0; PreventAllowMediumRemoval 0 1; StartStopUnit 1 1; Init 1];
      [Init 0];
      [Init 0; IsReady 0; StartStopUnit 1 0];
      [Init 0; StartStopUnit 0 0];
      [Init 0; StartStopUnit 0 0; StartStopUnit 0 1];
      [StartStopUnit 0 255] ]
  = [-1; -1; 0; 0; -1; 0; 0].
Proof. reflexivity. Qed.

(** ** SCSI INQUIRY *)

Lemma length_inquiry_data :
  Z.of_nat (length psram_msc_inquiry_data) = STANDARD_INQUIRY_DATA_LEN.
Proof. reflexivity. Qed.

(** With the EVPD bit set the handler dispatches on the page code alone. *)
Lemma inquiry_evpd (lun : Z) (params data_out : list Z) :
  Z.land (nth 1 params 0) 1 <> 0 ->
  psram_msc_Inquiry lun params data_out
  = if nth 2 params 0 =? 0x00 then (6, psram_msc_vpd00 ++ skipn 6 data_out)
    else if nth 2 params 0 =? 0x83 then (4, psram_msc_vpd83 ++ skipn 4 data_out)
    else (-1, data_out).
Proof.
  intros H. unfold psram_msc_Inquiry.
  replace (Z.land (nth 1 params 0) 1 =? 0) with false
    by (symmetry; now apply Z.eqb_neq).
  reflexivity.
Qed.

(** With the EVPD bit clear, on unit 0, and byte 3 of the command block zero,
    the reply is the standard payload cut to the requested length. *)
Lemma inquiry_standard_short (params data_out : list Z) :
  Z.land (nth 1 params 0) 1 = 0 ->
  nth 3 params 0 = 0 -> 0 <= nth 4 params 0 < 2 ^ 8 ->
  psram_msc_Inquiry 0 params data_out
  = (Z.min 36 (requested_allocation_length params),
     blit (firstn (Z.to_nat (Z.min 36 (requested_allocation_length params)))
             psram_msc_inquiry_data) data_out).
Proof.
  intros H1 H3 H4. unfold psram_msc_Inquiry, requested_allocation_length.
  rewrite H1, H3. cbn [Z.eqb negb psram_msc_lu_num Z.leb Z.compare].
  rewrite Z.shiftl_0_l, Z.lor_0_l.
  unfold u8. rewrite Z.mod_small by assumption. reflexivity.
Qed.

(** C9: a standard inquiry on unit 0 that asks for up to 256 bytes.  The
    requested length, bytes 3 and 4 of the command block, is stored into a
    [uint8_t] and becomes 0, so the reply is empty and the reply buffer
    untouched; the 36-byte payload cut to 256 bytes would be all of it. *)
Theorem inquiry_allocation_length_narrowed (data_out : list Z) :
  Z.land (nth 1 inquiry_256 0) 1 = 0
  /\ requested_allocation_length inquiry_256 = 256
  /\ psram_msc_Inquiry 0 inquiry_256 data_out = (0, data_out)
  /\ Z.min STANDARD_INQUIRY_DATA_LEN (requested_allocation_length inquiry_256)
     = 36.
Proof. repeat split. Qed.

(** The same command block with byte 3 zero and byte 4 at 255 is answered in
    full. *)
Example inquiry_255 :
  psram_msc_Inquiry 0 [0x12; 0x00; 0x00; 0x00; 0xFF; 0x00] (repeat 0 36)
  = (36, psram_msc_inquiry_data).
Proof. reflexivity. Qed.

(** ** The serial number *)

Lemma fmt_02X_byte_check :
  forallb (fun i => two_hex (fmt_02X (Z.of_nat i))) (seq 0 256) = true.
Proof. vm_compute. reflexivity. Qed.

Lemma fmt_02X_sum_check :
  forallb (fun i => two_or_three_hex (fmt_02X (Z.of_nat i))) (seq 0 511) = true.
Proof. vm_compute. reflexivity. Qed.

(** A byte prints as two hexadecimal digits. *)
Lemma fmt_02X_byte (x : Z) : 0 <= x < 256 -> two_hex (fmt_02X x) = true.
Proof.
  intros H. pose proof fmt_02X_byte_check as C.
  rewrite forallb_forall in C. specialize (C (Z.to_nat x)).
  rewrite Z2Nat.id in C by lia. apply C, in_seq. lia.
Qed.

(** The sum of two bytes prints as two or three. *)
Lemma fmt_02X_sum (x : Z) : 0 <= x < 511 -> two_or_three_hex (fmt_02X x) = true.
Proof.
  intros H. pose proof fmt_02X_sum_check as C.
  rewrite forallb_forall in C. specialize (C (Z.to_nat x)).
  rewrite Z2Nat.id in C by lia. apply C, in_seq. lia.
Qed.

Lemma two_hex_inv (s : string) :
  two_hex s = true ->
  exists a b, s = String a (String b EmptyString)
              /\ is_hex_char a = true /\ is_hex_char b = true.
Proof.
  destruct s as [| a [| b [| c s]]]; cbn [two_hex all_hex]; try discriminate.
  intros H. apply andb_prop in H as [Ha H]. apply andb_prop in H as [Hb _].
  now exists a, b.
Qed.

Lemma two_or_three_hex_inv (s : string) :
  two_or_three_hex s = true ->
  two_hex s = true
  \/ exists a b c, s = String a (String b (String c EmptyString))
                   /\ is_hex_char a = true /\ is_hex_char b = true
                   /\ is_hex_char c = true.
Proof.
  destruct s as [| a [| b [| c [| d s]]]]; cbn [two_or_three_hex two_hex];
    try discriminate; intros H; [now left | right].
  cbn [all_hex] in H.
  apply andb_prop in H as [Ha H]. apply andb_prop in H as [Hb H].
  apply andb_prop in H as [Hc _]. now exists a, b, c.
Qed.

(** The file name and the file content that [psram_wipe_and_setup] derives
    from a 12-byte unique ID: the name is not cut by [snprintf]; the content,
    the 12 characters of the name after "ckcc-", is the first 12 characters of
    the hexadecimal string, 12 hexadecimal digits, and the whole string when
    neither sum exceeds a byte. *)
Lemma serial_of_id (id : list Z) :
  length id = 12%nat -> Forall (fun b => 0 <= b < 256) id ->
  snprintf_fname id = ("ckcc-" ++ serial_hex id ++ ".txt")%string
  /\ substring 5 12 (snprintf_fname id) = substring 0 12 (serial_hex id)
  /\ String.length (substring 0 12 (serial_hex id)) = 12%nat
  /\ all_hex (substring 0 12 (serial_hex id)) = true
  /\ (nth 10 id 0 + nth 2 id 0 < 256 -> nth 8 id 0 + nth 0 id 0 < 256 ->
      substring 0 12 (serial_hex id) = serial_hex id).
Proof.
  intros Hlen Hid.
  do 13 (destruct id as [| ? id]; try discriminate Hlen). clear Hlen.
  repeat match goal with
         | H : Forall _ (_ :: _) |- _ => inversion H; subst; clear H
         end.
  unfold snprintf_fname, serial_hex. cbn [nth].
  repeat match goal with
         | |- context [fmt_02X (?a + ?b)] =>
             let H := fresh "S" in
             assert (H : two_or_three_hex (fmt_02X (a + b)) = true)
               by (apply fmt_02X_sum; lia);
             let F := fresh "F" in
             assert (F : a + b < 256 -> two_hex (fmt_02X (a + b)) = true)
               by (intros; apply fmt_02X_byte; lia);
             generalize dependent (fmt_02X (a + b)); intros
         | |- context [fmt_02X ?a] =>
             let H := fresh "B" in
             assert (H : two_hex (fmt_02X a) = true)
               by (apply fmt_02X_byte; lia);
             generalize dependent (fmt_02X a); intros
         end.
  repeat match goal with
         | H : two_hex ?s = true |- _ =>
             apply two_hex_inv in H as (? & ? & -> & ? & ?)
         end.
  repeat match goal with
         | H : two_or_three_hex ?s = true |- _ =>
             apply two_or_three_hex_inv in H
               as [H | (? & ? & ? & -> & ? & ? & ?)];
             [apply two_hex_inv in H as (? & ? & -> & ? & ?) |]
         end;
    cbn [append substring String.length all_hex];
    repeat match goal with H : is_hex_char _ = true |- _ => rewrite H; clear H end;
    (repeat split; try reflexivity);
    intros L1 L2;
    repeat match goal with
           | F : ?a < 256 -> two_hex _ = true, L : ?a < 256 |- _ =>
               specialize (F L); cbn in F; try discriminate F
           end.
Qed.

(** ** Format and seed *)

Section FatFsFacts.

Variable L : Type.
Variable ff : ff_call -> mem * L -> FRESULT * (mem * L).

Lemma bind_step {A B} (c : M L A) (k : A -> M L B) (w w' : world L) (a : A) :
  c w = (a, w') -> bind L c k w = k a w'.
Proof. intros E. unfold bind. now rewrite E. Qed.

(** A library call appends itself and its result to the log of calls and
    prints nothing. *)
Lemma ff_do_calls (c : ff_call) (w : world L) :
  exists r w', ff_do ff c w = (r, w')
               /\ r = fst (ff c (region w, lib w))
               /\ calls w' = calls w ++ [(c, r)]
               /\ console w' = console w.
Proof.
  unfold ff_do. destruct (ff c (region w, lib w)) as [r [m l]].
  now exists r, (Build_world m l (calls w ++ [(c, r)]) (console w)).
Qed.

(** The calls [psram_wipe_and_setup] makes after [f_mkfs] succeeded: it
    returns [None] whatever they answer. *)
Lemma seed_files_run (id : list Z) (w : world L) :
  length id = 12%nat -> Forall (fun b => 0 <= b < 256) id ->
  exists w',
    (bind L (ff_do ff (f_setlabel "COLDCARD")) (fun _ =>
     bind L (ff_do ff (f_open (snprintf_fname id) [FA_WRITE; FA_CREATE_ALWAYS])) (fun _ =>
     bind L (ff_do ff (f_write (substring 5 12 (snprintf_fname id)) 12)) (fun _ =>
     bind L (ff_do ff f_close) (fun _ =>
     bind L (ff_do ff (f_open "serial.txt" [FA_WRITE; FA_CREATE_ALWAYS])) (fun _ =>
     bind L (ff_do ff (f_write (substring 5 12 (snprintf_fname id)) 12)) (fun _ =>
     bind L (ff_do ff f_close) (fun _ =>
     ret L (Return mp_const_none))))))))) w
    = (Return mp_const_none, w')
    /\ map fst (calls w') = map fst (calls w) ++ seed_calls id.
Proof.
  intros Hlen Hid.
  destruct (serial_of_id id Hlen Hid) as (-> & -> & _).
  destruct (ff_do_calls (f_setlabel "COLDCARD") w) as (r1 & w1 & E1 & _ & C1 & _).
  rewrite (bind_step _ _ _ _ _ E1).
  destruct (ff_do_calls (f_open ("ckcc-" ++ serial_hex id ++ ".txt")
                           [FA_WRITE; FA_CREATE_ALWAYS]) w1)
    as (r2 & w2 & E2 & _ & C2 & _).
  rewrite (bind_step _ _ _ _ _ E2).
  destruct (ff_do_calls (f_write (substring 0 12 (serial_hex id)) 12) w2)
    as (r3 & w3 & E3 & _ & C3 & _).
  rewrite (bind_step _ _ _ _ _ E3).
  destruct (ff_do_calls f_close w3) as (r4 & w4 & E4 & _ & C4 & _).
  rewrite (bind_step _ _ _ _ _ E4).
  destruct (ff_do_calls (f_open "serial.txt" [FA_WRITE; FA_CREATE_ALWAYS]) w4)
    as (r5 & w5 & E5 & _ & C5 & _).
  rewrite (bind_step _ _ _ _ _ E5).
  destruct (ff_do_calls (f_write (substring 0 12 (serial_hex id)) 12) w5)
    as (r6 & w6 & E6 & _ & C6 & _).
  rewrite (bind_step _ _ _ _ _ E6).
  destruct (ff_do_calls f_close w6) as (r7 & w7 & E7 & _ & C7 & _).
  rewrite (bind_step _ _ _ _ _ E7).
  exists w7. split; [reflexivity |].
  rewrite C7, C6, C5, C4, C3, C2, C1.
  rewrite !map_app, <- !app_assoc. reflexivity.
Qed.

(** The whole operation as one run: its result, and its library calls. *)
Lemma wipe_and_setup_run (id : list Z) (w : world L) :
  length id = 12%nat -> Forall (fun b => 0 <= b < 256) id ->
  exists w',
    psram_wipe_and_setup ff id w
    = ((if is_FR_OK (fst (ff (f_mkfs [FM_FAT; FM_SFD] BLOCK_SIZE)
                            (memset (region w) PSRAM_BASE 0x21 PSRAM_SIZE, lib w)))
        then Return mp_const_none else mp_raise_ValueError None), w')
    /\ map fst (calls w')
       = map fst (calls w)
         ++ f_mkfs [FM_FAT; FM_SFD] BLOCK_SIZE
            :: (if is_FR_OK (fst (ff (f_mkfs [FM_FAT; FM_SFD] BLOCK_SIZE)
                                    (memset (region w) PSRAM_BASE 0x21 PSRAM_SIZE, lib w)))
                then seed_calls id else []).
Proof.
  intros Hlen Hid. unfold psram_wipe_and_setup.
  unfold bind at 1. unfold wipe_contents. cbv beta iota.
  match goal with
  | |- context [bind L (ff_do ff ?c) ?k ?w0] =>
      destruct (ff_do_calls c w0) as (r & w1 & E & Hr & C & _);
      rewrite (bind_step _ k _ _ _ E)
  end.
  cbn [region lib calls] in Hr, C.
  change (u32 (BLOCK_SIZE * BLOCK_COUNT)) with PSRAM_SIZE in Hr.
  rewrite <- Hr. destruct (is_FR_OK r) eqn:Ok; cbn [negb].
  - destruct (seed_files_run id w1 Hlen Hid) as (w' & E' & C').
    exists w'. split; [exact E' |].
    rewrite C', C, map_app, <- app_assoc. reflexivity.
  - unfold bind, mp_printf, ret. eexists. split; [reflexivity |].
    cbn [calls]. rewrite C, map_app. reflexivity.
Qed.

(** C6, as the code has it: for a 12-byte unique ID, the content written
    to both files is the 12 characters that follow "ckcc-" in the generated
    name, which are 12 hexadecimal digits, the first 12 of the identifier,
    and the whole identifier when neither sum exceeds a byte.  Only the
    result of [f_mkfs] is examined: when it is not [FR_OK] the operation
    raises [ValueError] after that one call; when it is [FR_OK] the label,
    the two files and their contents are handed to the library in this
    order and the operation returns [None], whatever the library answers
    to the open, write and close calls. *)
Theorem wipe_and_setup_seeds_serial (id : list Z) (w : world L)
    (Hlen : length id = 12%nat) (Hid : Forall (fun b => 0 <= b < 256) id) :
  String.length (substring 0 12 (serial_hex id)) = 12%nat
  /\ all_hex (substring 0 12 (serial_hex id)) = true
  /\ (nth 10 id 0 + nth 2 id 0 < 256 -> nth 8 id 0 + nth 0 id 0 < 256 ->
      substring 0 12 (serial_hex id) = serial_hex id)
  /\ if is_FR_OK (fst (ff (f_mkfs [FM_FAT; FM_SFD] BLOCK_SIZE)
                         (memset (region w) PSRAM_BASE 0x21 PSRAM_SIZE, lib w)))
     then fst (psram_wipe_and_setup ff id w) = Return mp_const_none
          /\ map fst (calls (snd (psram_wipe_and_setup ff id w)))
             = map fst (calls w)
               ++ f_mkfs [FM_FAT; FM_SFD] BLOCK_SIZE :: seed_calls id
     else fst (psram_wipe_and_setup ff id w) = mp_raise_ValueError None
          /\ map fst (calls (snd (psram_wipe_and_setup ff id w)))
             = map fst (calls w) ++ [f_mkfs [FM_FAT; FM_SFD] BLOCK_SIZE].
Proof.
  destruct (serial_of_id id Hlen Hid) as (_ & _ & H12 & Hhex & Hwhole).
  split; [exact H12 |]. split; [exact Hhex |]. split; [exact Hwhole |].
  destruct (wipe_and_setup_run id w Hlen Hid) as (w' & -> & C).
  cbn [fst snd]. rewrite C.
  now destruct (is_FR_OK _).
Qed.

End FatFsFacts.

(** With the sample ID and a library whose writes fail. *)
Lemma wipe_and_setup_seeds_serial_witness :
  fst (psram_wipe_and_setup ff_write_fails sample_id fresh_world)
  = Return mp_const_none
  /\ map fst (calls (snd (psram_wipe_and_setup ff_write_fails sample_id fresh_world)))
     = f_mkfs [FM_FAT; FM_SFD] BLOCK_SIZE :: seed_calls sample_id.
Proof.
  assert (Hid : Forall (fun b => 0 <= b < 256) sample_id)
    by (unfold sample_id; repeat constructor; lia).
  exact (proj2 (proj2 (proj2
    (wipe_and_setup_seeds_serial unit ff_write_fails sample_id fresh_world
       eq_refl Hid)))).
Defined.

(** C6, as stated, fails: with a library whose every [f_write] answers
    [FR_DISK_ERR], both writes are attempted, both fail, and the operation
    still returns [None], as it does when they succeed. *)
Lemma wipe_and_setup_ignores_write_failure :
  fst (psram_wipe_and_setup ff_write_fails sample_id fresh_world)
  = Return mp_const_none
  /\ filter (fun cr => negb (is_FR_OK (snd cr)))
       (calls (snd (psram_wipe_and_setup ff_write_fails sample_id fresh_world)))
     = [ (f_write "67992311FEDC" 12, FR_DISK_ERR);
         (f_write "67992311FEDC" 12, FR_DISK_ERR) ]
  /\ fst (psram_wipe_and_setup ff_write_fails sample_id fresh_world)
     = fst (psram_wipe_and_setup ff_ok sample_id fresh_world).
Proof. repeat split; vm_compute; reflexivity. Qed.

(** ** The cluster-range resolver *)

(** On a cluster number of the volume, [clst2sect] computes the sector of the
    design's formula; the volume's sectors are 32-bit numbers. *)
Lemma clst2sect_valid (fs : FATFS) (clst : Z) :
  0 <= database fs -> 0 <= csize fs -> n_fatent fs < 2 ^ 32 ->
  database fs + csize fs * (n_fatent fs - 2) < 2 ^ 32 ->
  2 <= clst < n_fatent fs ->
  clst2sect fs clst = spec_sector fs clst.
Proof.
  intros Hd Hc Hn Hmax Hclst. unfold clst2sect, spec_sector.
  rewrite (u32_small (clst - 2)) by lia.
  rewrite (u32_small (n_fatent fs - 2)) by lia.
  replace (n_fatent fs - 2 <=? clst - 2) with false
    by (symmetry; apply Z.leb_gt; lia).
  assert (0 <= csize fs * (clst - 2) <= csize fs * (n_fatent fs - 2)) by nia.
  rewrite (u32_small (csize fs * (clst - 2))) by lia.
  apply u32_small. lia.
Qed.

(** Outside the volume's cluster numbers it answers 0. *)
Lemma clst2sect_invalid (fs : FATFS) (clst : Z) :
  2 <= n_fatent fs < 2 ^ 32 -> 0 <= clst < 2 ^ 32 ->
  clst < 2 \/ n_fatent fs <= clst ->
  clst2sect fs clst = 0.
Proof.
  intros Hn Hr Hclst. unfold clst2sect.
  rewrite (u32_small (n_fatent fs - 2)) by lia.
  replace (n_fatent fs - 2 <=? u32 (clst - 2)) with true; [reflexivity |].
  symmetry. apply Z.leb_le. unfold u32. destruct Hclst as [Hlow | Hhigh].
  - replace ((clst - 2) mod 2 ^ 32) with (clst - 2 + 2 ^ 32); [lia |].
    apply Z.mod_unique with (q := -1); [left |]; lia.
  - rewrite Z.mod_small by lia. lia.
Qed.



Section ResolverFacts.

Variable L : Type.
Variable ff : ff_call -> mem * L -> FRESULT * (mem * L).
Variable cltbl : L -> list Z.
Variable fatfs : L -> FATFS.


End ResolverFacts.

(** C7: the resolver on a file held in the first data cluster, with a library
    whose calls succeed.  The link map has one pair; the design's ranges for
    it are the one range (sector 97 = data area start, length 1), and the
    console shows that range; the value returned to the caller is [None], not
    the list of ranges. *)
Theorem mmap_file_single_cluster :
  fst (psram_mmap_file ff_ok cltbl_single_cluster fatfs_sample "serial.txt"
         fresh_world)
  = Return mp_const_none
  /\ spec_physical_ranges (fatfs_sample tt) (cltbl_single_cluster tt) = [(97, 1)]
  /\ console (snd (psram_mmap_file ff_ok cltbl_single_cluster fatfs_sample
                     "serial.txt" fresh_world))
     = [ ("[0] = %lu\n"%string, [4]);
         ("num = %d\n"%string, [1]);
         ("[%d] (cl=0x%lx ln=%d) => "%string, [0; 2; 1]);
         ("0x%lx\n"%string, [97]) ]
  /\ fst (psram_mmap_file ff_ok cltbl_single_cluster fatfs_sample "serial.txt"
            fresh_world)
     <> Return (obj_of_ranges
                  (spec_physical_ranges (fatfs_sample tt) (cltbl_single_cluster tt))).
Proof.
  split; [reflexivity |]. split; [reflexivity |]. split; [reflexivity |].
  vm_compute. discriminate.
Qed.

(** * Further properties *)

(** ** The flags word *)

(** One call on a flags word that is 0 or 1 leaves it 0 or 1. *)
Lemma run_op_flags_01 (op : lu_op) (st : msc_state) :
  lu_op_wf op ->
  psram_msc_lu_flags st = 0 \/ psram_msc_lu_flags st = 1 ->
  psram_msc_lu_flags (snd (run_op op st)) = 0
  \/ psram_msc_lu_flags (snd (run_op op st)) = 1.
Proof.
  intros Hwf Hst.
  destruct op as [lun | lun | lun | lun started | lun param];
    cbn [run_op lu_op_wf] in *.
  - unfold psram_msc_Init. destruct (lun =? 0); cbn [negb snd]; [| exact Hst].
    unfold lu_flag_clr, lu_flag_set, set_flags. cbn [psram_msc_lu_flags].
    destruct Hst as [-> | ->]; right; reflexivity.
  - unfold psram_msc_IsReady. now destruct (psram_msc_lu_num <=? lun).
  - unfold psram_msc_IsWriteProtected. now destruct (psram_msc_lu_num <=? lun).
  - unfold psram_msc_StartStopUnit, psram_msc_lu_num.
    destruct (1 <=? lun) eqn:E1; [exact Hst |].
    apply Z.leb_gt in E1. assert (lun = 0) by lia. subst lun.
    unfold lu_flag_clr, lu_flag_set, set_flags, printf.
    destruct (started =? 0); cbn [negb snd psram_msc_lu_flags];
      destruct Hst as [-> | ->]; [left | left | right | right]; reflexivity.
  - exact Hst.
Qed.

(** X1: whatever calls the SCSI layer makes, with [uint8_t] arguments, from
    the zero-initialised state, the flags word is 0 or 1: only the started bit
    of unit 0 is ever set, and unit 0 never reports itself write-protected. *)
Theorem flags_only_started_bit (ops : list lu_op)
    (Hwf : Forall lu_op_wf ops) :
  (psram_msc_lu_flags (run_ops ops msc_initial) = 0
   \/ psram_msc_lu_flags (run_ops ops msc_initial) = 1)
  /\ fst (psram_msc_IsWriteProtected 0 (run_ops ops msc_initial)) = 0.
Proof.
  assert (I : forall st, psram_msc_lu_flags st = 0 \/ psram_msc_lu_flags st = 1 ->
                psram_msc_lu_flags (run_ops ops st) = 0
                \/ psram_msc_lu_flags (run_ops ops st) = 1).
  { induction Hwf as [| op ops Hop _ IH]; intros st Hst; [exact Hst |].
    rewrite run_ops_cons. apply IH. now apply run_op_flags_01. }
  specialize (I msc_initial (or_introl eq_refl)).
  split; [exact I |].
  unfold psram_msc_IsWriteProtected, lu_flag_is_set.
  destruct I as [-> | ->]; reflexivity.
Qed.

Lemma flags_only_started_bit_witness :
  (psram_msc_lu_flags
     (run_ops [Init 0; StartStopUnit 0 0; StartStopUnit 0 255; Init 3] msc_initial) = 0
   \/ psram_msc_lu_flags
        (run_ops [Init 0; StartStopUnit 0 0; StartStopUnit 0 255; Init 3] msc_initial) = 1)
  /\ fst (psram_msc_IsWriteProtected 0
            (run_ops [Init 0; StartStopUnit 0 0; StartStopUnit 0 255; Init 3]
               msc_initial)) = 0.
Proof.
  apply flags_only_started_bit.
  repeat constructor; cbn; lia.
Defined.

(** ** Confinement to the region *)

Lemma region_size : BLOCK_COUNT * BLOCK_SIZE = PSRAM_SIZE.
Proof. reflexivity. Qed.

(** An accepted request spans addresses of the region only. *)
Lemma accepted_span_in_region (blk n p a : Z) :
  0 <= blk < 2 ^ 32 -> 0 <= n < 2 ^ 16 ->
  block_to_ptr blk n = Some p ->
  p <= a < p + n * BLOCK_SIZE -> in_region a.
Proof.
  intros Hblk Hn H Ha.
  destruct (block_to_ptr_Some _ _ _ Hblk Hn H) as (A & B & ->).
  unfold in_region, BLOCK_COUNT, BLOCK_SIZE, PSRAM_SIZE in *. lia.
Qed.

(** The length check of the block device interface: a buffer that passes it
    holds as many whole blocks as the count handed to the validator. *)
Lemma blocks_len_passes (buf : list Z) :
  (u16 (Z.of_nat (length buf) / BLOCK_SIZE) <? 1) = false ->
  (u32 (u16 (Z.of_nat (length buf) / BLOCK_SIZE) * BLOCK_SIZE)
   =? Z.of_nat (length buf)) = true ->
  Z.of_nat (length buf) = u16 (Z.of_nat (length buf) / BLOCK_SIZE) * BLOCK_SIZE
  /\ 1 <= u16 (Z.of_nat (length buf) / BLOCK_SIZE) < 2 ^ 16.
Proof.
  intros E1 E2.
  pose proof (u16_range (Z.of_nat (length buf) / BLOCK_SIZE)) as R.
  set (k := u16 (Z.of_nat (length buf) / BLOCK_SIZE)) in *.
  apply Z.ltb_ge in E1. apply Z.eqb_eq in E2.
  rewrite u32_small in E2 by (unfold BLOCK_SIZE; lia). lia.
Qed.

(** X2: no write entry point changes a byte outside the PSRAM region: not
    the SCSI write, not [psram_writeblocks], not any [psram_ioctl] command,
    and not the raw write as long as its count fits 16 bits. *)
Theorem writes_stay_in_region (lun blk n block_num arg a : Z)
    (cmd : blockdev_ioctl) (buf : list Z) (m : mem)
    (Hblk : 0 <= blk < 2 ^ 32) (Hn : 0 <= n < 2 ^ 16)
    (Ha : ~ in_region a) :
  snd (psram_msc_Write lun buf blk n m) a = m a
  /\ snd (direct_psram_write_blocks buf blk n m) a = m a
  /\ snd (psram_writeblocks block_num buf m) a = m a
  /\ snd (psram_ioctl cmd arg m) a = m a.
Proof.
  assert (W : forall p, block_to_ptr blk n = Some p ->
                store_bytes m p buf (u32 (n * BLOCK_SIZE)) a = m a).
  { intros p Hp. apply store_bytes_outside. intros Hin. apply Ha.
    rewrite u32_small in Hin by (unfold BLOCK_SIZE; lia).
    exact (accepted_span_in_region _ _ _ _ Hblk Hn Hp Hin). }
  split; [| split; [| split]].
  - unfold psram_msc_Write. destruct (psram_msc_lu_num <=? lun); [reflexivity |].
    destruct (block_to_ptr blk n) as [p |] eqn:E; [| reflexivity].
    now apply W.
  - unfold direct_psram_write_blocks. rewrite (u16_small n) by assumption.
    destruct (block_to_ptr blk n) as [p |] eqn:E; [| reflexivity].
    now apply W.
  - unfold psram_writeblocks.
    destruct (u16 (Z.of_nat (length buf) / BLOCK_SIZE) <? 1) eqn:E1;
      [reflexivity |].
    destruct (u32 (u16 (Z.of_nat (length buf) / BLOCK_SIZE) * BLOCK_SIZE)
              =? Z.of_nat (length buf)) eqn:E2; cbn [negb]; [| reflexivity].
    destruct (blocks_len_passes buf E1 E2) as (Hlen & Hk).
    set (k := u16 (Z.of_nat (length buf) / BLOCK_SIZE)) in *.
    destruct (block_to_ptr (u32 block_num) k) as [p |] eqn:E; [| reflexivity].
    cbn [snd]. apply store_bytes_outside. intros Hin. apply Ha.
    rewrite Hlen in Hin.
    assert (Hk' : 0 <= k < 2 ^ 16) by lia.
    exact (accepted_span_in_region _ k _ _ (u32_range block_num) Hk' E Hin).
  - destruct cmd; cbn [psram_ioctl snd]; try reflexivity.
    destruct (block_to_ptr (u32 arg) 1) as [p |] eqn:E; [| reflexivity].
    cbn [snd]. apply memset_outside. intros Hin. apply Ha.
    apply (accepted_span_in_region (u32 arg) 1 p a (u32_range arg));
      [lia | exact E | unfold BLOCK_SIZE in *; lia].
Qed.

(** The byte just above the region and the byte just below it, after a
    write of one block at the last block a single-block write can reach. *)
Lemma writes_stay_in_region_witness :
  snd (psram_msc_Write 0 counting_block 15871 1 zero_mem)
      (PSRAM_BASE + PSRAM_SIZE) = zero_mem (PSRAM_BASE + PSRAM_SIZE)
  /\ snd (psram_msc_Write 0 counting_block 15871 1 zero_mem) (PSRAM_BASE - 1)
     = zero_mem (PSRAM_BASE - 1).
Proof.
  split.
  - apply (writes_stay_in_region 0 15871 1 0 0 (PSRAM_BASE + PSRAM_SIZE)
             MP_BLOCKDEV_IOCTL_SYNC counting_block zero_mem);
      unfold in_region, PSRAM_BASE, PSRAM_SIZE; lia.
  - apply (writes_stay_in_region 0 15871 1 0 0 (PSRAM_BASE - 1)
             MP_BLOCKDEV_IOCTL_SYNC counting_block zero_mem);
      unfold in_region, PSRAM_BASE, PSRAM_SIZE; lia.
Defined.

Lemma load_bytes_ext (m1 m2 : mem) (p n : Z) :
  (forall a, p <= a < p + n -> m1 a = m2 a) ->
  load_bytes m1 p n = load_bytes m2 p n.
Proof.
  intros H. unfold load_bytes. apply map_ext_in. intros i Hi.
  apply in_seq in Hi. apply H. lia.
Qed.

(** X3: what a read entry point delivers depends on the contents of the
    PSRAM region only: on two memories that agree on the region, the SCSI
    read, [psram_readblocks] and the raw read (its count fitting 16 bits)
    give the same status and the same bytes, whatever lies outside. *)
Theorem reads_see_region_only (lun blk n block_num : Z) (buf : list Z)
    (m1 m2 : mem)
    (Hblk : 0 <= blk < 2 ^ 32) (Hn : 0 <= n < 2 ^ 16)
    (Hagree : forall a, in_region a -> m1 a = m2 a) :
  psram_msc_Read lun buf blk n m1 = psram_msc_Read lun buf blk n m2
  /\ direct_psram_read_blocks buf blk n m1 = direct_psram_read_blocks buf blk n m2
  /\ psram_readblocks block_num buf m1 = psram_readblocks block_num buf m2.
Proof.
  assert (R : forall p, block_to_ptr blk n = Some p ->
                load_bytes m1 p (u32 (n * BLOCK_SIZE))
                = load_bytes m2 p (u32 (n * BLOCK_SIZE))).
  { intros p Hp. apply load_bytes_ext. intros a Ha. apply Hagree.
    rewrite u32_small in Ha by (unfold BLOCK_SIZE; lia).
    exact (accepted_span_in_region _ _ _ _ Hblk Hn Hp Ha). }
  split; [| split].
  - unfold psram_msc_Read. destruct (psram_msc_lu_num <=? lun); [reflexivity |].
    destruct (block_to_ptr blk n) as [p |] eqn:E; [| reflexivity].
    now rewrite (R p).
  - unfold direct_psram_read_blocks. rewrite (u16_small n) by assumption.
    destruct (block_to_ptr blk n) as [p |] eqn:E; [| reflexivity].
    now rewrite (R p).
  - unfold psram_readblocks.
    destruct (u16 (Z.of_nat (length buf) / BLOCK_SIZE) <? 1) eqn:E1;
      [reflexivity |].
    destruct (u32 (u16 (Z.of_nat (length buf) / BLOCK_SIZE) * BLOCK_SIZE)
              =? Z.of_nat (length buf)) eqn:E2; cbn [negb]; [| reflexivity].
    destruct (blocks_len_passes buf E1 E2) as (Hlen & Hk).
    set (k := u16 (Z.of_nat (length buf) / BLOCK_SIZE)) in *.
    destruct (block_to_ptr (u32 block_num) k) as [p |] eqn:E; [| reflexivity].
    f_equal. f_equal. apply load_bytes_ext. intros a Ha. apply Hagree.
    rewrite Hlen in Ha.
    assert (Hk' : 0 <= k < 2 ^ 16) by lia.
    exact (accepted_span_in_region _ k _ _ (u32_range block_num) Hk' E Ha).
Qed.

(** Two memories that differ below the region read the same. *)
Lemma reads_see_region_only_witness :
  psram_msc_Read 0 (repeat 7 512) 0 1 stray_mem
  = psram_msc_Read 0 (repeat 7 512) 0 1 zero_mem
  /\ stray_mem (PSRAM_BASE - 1) <> zero_mem (PSRAM_BASE - 1).
Proof.
  split; [| discriminate].
  apply (reads_see_region_only 0 0 1 0 (repeat 7 512) stray_mem zero_mem);
    try lia.
  intros a Ha. unfold stray_mem, zero_mem, in_region in *.
  destruct (a <? PSRAM_BASE) eqn:E; [apply Z.ltb_lt in E; lia | reflexivity].
Defined.

(** ** Independence of block ranges *)

(** X4: a SCSI write to one range of blocks leaves what a SCSI read of a
    range of other blocks delivers as it was. *)
Theorem write_keeps_other_blocks (lun1 lun2 blk1 n1 blk2 n2 : Z)
    (P buf : list Z) (m : mem)
    (Hblk1 : 0 <= blk1 < 2 ^ 32) (Hn1 : 0 <= n1 < 2 ^ 16)
    (Hblk2 : 0 <= blk2 < 2 ^ 32) (Hn2 : 0 <= n2 < 2 ^ 16)
    (Hdisj : blk1 + n1 <= blk2 \/ blk2 + n2 <= blk1) :
  psram_msc_Read lun2 buf blk2 n2 (snd (psram_msc_Write lun1 P blk1 n1 m))
  = psram_msc_Read lun2 buf blk2 n2 m.
Proof.
  unfold psram_msc_Write.
  destruct (psram_msc_lu_num <=? lun1); [reflexivity |].
  destruct (block_to_ptr blk1 n1) as [p1 |] eqn:E1; [| reflexivity].
  cbn [snd]. unfold psram_msc_Read.
  destruct (psram_msc_lu_num <=? lun2); [reflexivity |].
  destruct (block_to_ptr blk2 n2) as [p2 |] eqn:E2; [| reflexivity].
  f_equal. f_equal. apply load_bytes_ext. intros a Ha.
  apply store_bytes_outside.
  destruct (block_to_ptr_Some _ _ _ Hblk1 Hn1 E1) as (_ & _ & ->).
  destruct (block_to_ptr_Some _ _ _ Hblk2 Hn2 E2) as (_ & _ & ->).
  rewrite u32_small in * by (unfold BLOCK_SIZE; lia).
  unfold BLOCK_SIZE in *. lia.
Qed.

(** Block 5 is written; blocks 3 and 4, read before and after, are the
    same. *)
Lemma write_keeps_other_blocks_witness :
  psram_msc_Read 0 (repeat 0 1024) 3 2
    (snd (psram_msc_Write 0 counting_block 5 1 zero_mem))
  = psram_msc_Read 0 (repeat 0 1024) 3 2 zero_mem.
Proof.
  apply (write_keeps_other_blocks 0 0 5 1 3 2 counting_block (repeat 0 1024)
           zero_mem); lia.
Defined.

(** ** The block device interface *)

Lemma blit_full (data buf : list Z) :
  length data = length buf -> blit data buf = data.
Proof.
  intros H. unfold blit. rewrite H, skipn_all. apply app_nil_r.
Qed.

(** The three tests of [psram_readblocks] and [psram_writeblocks], taken
    together, against [blocks_request_ok]. *)
Lemma blocks_checks (block_num : Z) (buf : list Z) :
  (blocks_request_ok block_num buf = true
   /\ (u16 (Z.of_nat (length buf) / BLOCK_SIZE) <? 1) = false
   /\ (u32 (u16 (Z.of_nat (length buf) / BLOCK_SIZE) * BLOCK_SIZE)
       =? Z.of_nat (length buf)) = true
   /\ u16 (Z.of_nat (length buf) / BLOCK_SIZE) = Z.of_nat (length buf) / BLOCK_SIZE
   /\ block_to_ptr (u32 block_num) (u16 (Z.of_nat (length buf) / BLOCK_SIZE))
      = Some (PSRAM_BASE + u32 block_num * BLOCK_SIZE))
  \/ (blocks_request_ok block_num buf = false
      /\ ((u16 (Z.of_nat (length buf) / BLOCK_SIZE) <? 1) = true
          \/ (u32 (u16 (Z.of_nat (length buf) / BLOCK_SIZE) * BLOCK_SIZE)
              =? Z.of_nat (length buf)) = false
          \/ block_to_ptr (u32 block_num)
               (u16 (Z.of_nat (length buf) / BLOCK_SIZE)) = None)).
Proof.
  unfold blocks_request_ok.
  pose proof (u32_range block_num) as Rb.
  pose proof (u16_range (Z.of_nat (length buf) / BLOCK_SIZE)) as Rk.
  set (len := Z.of_nat (length buf)) in *.
  set (b := u32 block_num) in *.
  destruct (u16 (len / BLOCK_SIZE) <? 1) eqn:E1; [right |].
  { split; [| now left].
    apply Z.ltb_lt in E1.
    destruct (0 <? len) eqn:L0; [| reflexivity].
    destruct (len mod BLOCK_SIZE =? 0) eqn:L1; [| reflexivity].
    destruct (b <? BLOCK_COUNT) eqn:L2; [| reflexivity].
    destruct (b + len <? BLOCK_COUNT) eqn:L3; [| reflexivity].
    exfalso. apply Z.ltb_lt in L0, L2, L3. apply Z.eqb_eq in L1.
    unfold BLOCK_SIZE, BLOCK_COUNT in *.
    assert (len = 512 * (len / 512)) by (apply Z_div_exact_full_2; lia).
    rewrite u16_small in E1 by lia. lia. }
  destruct (u32 (u16 (len / BLOCK_SIZE) * BLOCK_SIZE) =? len) eqn:E2; [| right].
  2:{ split; [| now right; left].
      apply Z.eqb_neq in E2.
      destruct (0 <? len) eqn:L0; [| reflexivity].
      destruct (len mod BLOCK_SIZE =? 0) eqn:L1; [| reflexivity].
      destruct (b <? BLOCK_COUNT) eqn:L2; [| reflexivity].
      destruct (b + len <? BLOCK_COUNT) eqn:L3; [| reflexivity].
      exfalso. apply Z.ltb_lt in L0, L2, L3. apply Z.eqb_eq in L1.
      unfold BLOCK_SIZE, BLOCK_COUNT in *.
      assert (len = 512 * (len / 512)) by (apply Z_div_exact_full_2; lia).
      rewrite u16_small in E2 by lia. rewrite u32_small in E2 by lia. lia. }
  destruct (blocks_len_passes buf E1 E2) as (Hlen & Hk).
  fold len in Hlen, Hk. set (k := u16 (len / BLOCK_SIZE)) in *.
  assert (Hmod : len mod BLOCK_SIZE = 0)
    by (rewrite Hlen; apply Z.mod_mul; unfold BLOCK_SIZE; lia).
  assert (Hdiv : len / BLOCK_SIZE = k)
    by (rewrite Hlen; apply Z.div_mul; unfold BLOCK_SIZE; lia).
  assert (Hk' : 0 <= k < 2 ^ 16) by lia.
  destruct (block_to_ptr_cases b k Rb Hk') as [(A & B & C) | (A & C)].
  - left. rewrite <- Hlen in B. repeat split; try assumption; [| now symmetry].
    replace (0 <? len) with true
      by (symmetry; apply Z.ltb_lt; unfold BLOCK_SIZE in *; lia).
    rewrite Hmod.
    replace (b <? BLOCK_COUNT) with true by (symmetry; now apply Z.ltb_lt).
    replace (b + len <? BLOCK_COUNT) with true by (symmetry; now apply Z.ltb_lt).
    reflexivity.
  - right. split; [| now right; right].
    destruct (b <? BLOCK_COUNT) eqn:L2; [| now rewrite !andb_false_r].
    destruct (b + len <? BLOCK_COUNT) eqn:L3; [| now rewrite !andb_false_r].
    exfalso. apply A. apply Z.ltb_lt in L2, L3. rewrite <- Hlen. now split.
Qed.

(** X5: [psram_readblocks] and [psram_writeblocks] serve exactly the
    requests with a buffer of one or more whole blocks, a block number below
    BLOCK_COUNT, and block number plus buffer length in bytes below
    BLOCK_COUNT: then they return 0, the read filling the whole buffer from
    the block's address and the write storing the whole buffer there; any
    other request raises [ValueError] and changes neither buffer nor
    memory. *)
Theorem blocks_served_exactly (block_num : Z) (buf : list Z) (m : mem) :
  if blocks_request_ok block_num buf then
    psram_readblocks block_num buf m
    = (Return (MP_OBJ_NEW_SMALL_INT 0),
       load_bytes m (PSRAM_BASE + u32 block_num * BLOCK_SIZE)
         (Z.of_nat (length buf)))
    /\ psram_writeblocks block_num buf m
       = (Return (MP_OBJ_NEW_SMALL_INT 0),
          store_bytes m (PSRAM_BASE + u32 block_num * BLOCK_SIZE) buf
            (Z.of_nat (length buf)))
  else
    psram_readblocks block_num buf m = (mp_raise_ValueError None, buf)
    /\ psram_writeblocks block_num buf m = (mp_raise_ValueError None, m).
Proof.
  unfold psram_readblocks, psram_writeblocks.
  destruct (blocks_checks block_num buf)
    as [(-> & E1 & E2 & _ & E3) | (-> & [E1 | [E2 | E3]])].
  - rewrite E1, E2, E3. cbn [negb]. split; [| reflexivity].
    f_equal. apply blit_full. now rewrite length_load_bytes, Nat2Z.id.
  - now rewrite E1.
  - rewrite E2. cbn [negb].
    now destruct (u16 (Z.of_nat (length buf) / BLOCK_SIZE) <? 1).
  - rewrite E3.
    destruct (u16 (Z.of_nat (length buf) / BLOCK_SIZE) <? 1); [easy |].
    now destruct (u32 (u16 (Z.of_nat (length buf) / BLOCK_SIZE) * BLOCK_SIZE)
                  =? Z.of_nat (length buf)).
Qed.

(** Block 0 takes 31 blocks but not 32; block 15871 takes one block and block
    15872 none. *)
Example blocks_served_edges :
  map (fun r => blocks_request_ok (fst r) (repeat 0 (snd r)))
    [(0, 512%nat); (15871, 512%nat); (15872, 512%nat); (16383, 512%nat);
     (0, 1024%nat); (15360, 1024%nat); (0, 0%nat); (0, 511%nat); (-1, 512%nat)]
  = [true; true; false; false; true; false; false; false; false].
Proof. vm_compute. reflexivity. Qed.

(** X6: what [psram_writeblocks] stored is what every read path delivers:
    after a served write of a buffer at a block number, [psram_readblocks]
    at that block number into a buffer of the same length, the SCSI read and
    the raw read of the same blocks all succeed and deliver the buffer
    written. *)
Theorem writeblocks_then_read (block_num : Z) (buf buf0 : list Z) (m : mem)
    (Hok : blocks_request_ok block_num buf = true)
    (Hlen : length buf0 = length buf) :
  psram_readblocks block_num buf0 (snd (psram_writeblocks block_num buf m))
  = (Return (MP_OBJ_NEW_SMALL_INT 0), buf)
  /\ psram_msc_Read 0 buf0 (u32 block_num) (Z.of_nat (length buf) / BLOCK_SIZE)
       (snd (psram_writeblocks block_num buf m))
     = (0, buf)
  /\ direct_psram_read_blocks buf0 (u32 block_num)
       (Z.of_nat (length buf) / BLOCK_SIZE)
       (snd (psram_writeblocks block_num buf m))
     = (0, buf).
Proof.
  destruct (blocks_checks block_num buf)
    as [(_ & E1 & E2 & Ek & E3) | (F & _)]; [| congruence].
  destruct (blocks_len_passes buf E1 E2) as (Hbytes & Hk).
  assert (W : snd (psram_writeblocks block_num buf m)
              = store_bytes m (PSRAM_BASE + u32 block_num * BLOCK_SIZE) buf
                  (Z.of_nat (length buf))).
  { unfold psram_writeblocks. now rewrite E1, E2, E3. }
  rewrite W. rewrite Ek in *.
  set (k := Z.of_nat (length buf) / BLOCK_SIZE) in *.
  assert (Hu : u32 (k * BLOCK_SIZE) = Z.of_nat (length buf))
    by (rewrite u32_small by (unfold BLOCK_SIZE; lia); now symmetry).
  split; [| split].
  - unfold psram_readblocks. rewrite Hlen. fold k. rewrite Ek.
    rewrite E1, E2, E3. cbn [negb]. f_equal.
    rewrite load_store_bytes. apply blit_full. now symmetry.
  - unfold psram_msc_Read. cbn [psram_msc_lu_num Z.leb Z.compare].
    rewrite E3, Hu, load_store_bytes. f_equal. apply blit_full. now symmetry.
  - unfold direct_psram_read_blocks. rewrite (u16_small k) by lia.
    rewrite E3, Hu, load_store_bytes. f_equal. apply blit_full. now symmetry.
Qed.

Lemma writeblocks_then_read_witness :
  psram_readblocks 9 (repeat 0 512)
    (snd (psram_writeblocks 9 counting_block zero_mem))
  = (Return (MP_OBJ_NEW_SMALL_INT 0), counting_block).
Proof.
  exact (proj1 (writeblocks_then_read 9 counting_block (repeat 0 512) zero_mem
                  eq_refl eq_refl)).
Defined.

Lemma load_bytes_memset (m : mem) (p c : Z) (n : nat) :
  load_bytes (memset m p c (Z.of_nat n)) p (Z.of_nat n) = repeat c n.
Proof.
  unfold load_bytes. rewrite Nat2Z.id.
  transitivity (map (fun _ : nat => c) (seq 0 n)).
  - apply map_ext_in. intros i Hi. apply in_seq in Hi.
    apply memset_inside. lia.
  - now rewrite map_const, length_seq.
Qed.

(** X7: an erased block reads back as 512 bytes of 0xFF: after the erase
    control operation on a block index below 15872, [psram_readblocks] of
    that block into a one-block buffer and the SCSI read of that block both
    succeed and deliver 0xFF in every byte. *)
Theorem erase_then_read (arg : Z) (buf : list Z) (m : mem)
    (Harg : 0 <= arg < 15872) (Hlen : length buf = 512%nat) :
  fst (psram_ioctl MP_BLOCKDEV_IOCTL_BLOCK_ERASE arg m) = MP_OBJ_NEW_SMALL_INT 0
  /\ psram_readblocks arg buf
       (snd (psram_ioctl MP_BLOCKDEV_IOCTL_BLOCK_ERASE arg m))
     = (Return (MP_OBJ_NEW_SMALL_INT 0), repeat 0xFF 512)
  /\ psram_msc_Read 0 buf arg 1
       (snd (psram_ioctl MP_BLOCKDEV_IOCTL_BLOCK_ERASE arg m))
     = (0, repeat 0xFF 512).
Proof.
  assert (Hu : u32 arg = arg) by (apply u32_small; lia).
  assert (E : block_to_ptr arg 1 = Some (PSRAM_BASE + arg * BLOCK_SIZE)).
  { destruct (block_to_ptr_cases arg 1 ltac:(lia) ltac:(lia))
      as [(_ & _ & C) | (A & _)]; [exact C |].
    exfalso. apply A. unfold BLOCK_COUNT, BLOCK_SIZE. lia. }
  unfold psram_ioctl. rewrite Hu, E. cbn [fst snd].
  split; [reflexivity |]. split.
  - unfold psram_readblocks. rewrite Hlen, Hu.
    change (u16 (Z.of_nat 512 / BLOCK_SIZE)) with 1.
    change (1 <? 1) with false.
    change (u32 (1 * BLOCK_SIZE) =? Z.of_nat 512) with true.
    cbn [negb]. rewrite E. f_equal.
    change BLOCK_SIZE with (Z.of_nat 512) at 2.
    rewrite load_bytes_memset. apply blit_full.
    now rewrite repeat_length.
  - unfold psram_msc_Read. cbn [psram_msc_lu_num Z.leb Z.compare].
    rewrite E. f_equal.
    change (u32 (1 * BLOCK_SIZE)) with (Z.of_nat 512).
    change BLOCK_SIZE with (Z.of_nat 512) at 2.
    rewrite load_bytes_memset. apply blit_full.
    now rewrite repeat_length.
Qed.

Lemma erase_then_read_witness :
  psram_readblocks 15871 counting_block
    (snd (psram_ioctl MP_BLOCKDEV_IOCTL_BLOCK_ERASE 15871 zero_mem))
  = (Return (MP_OBJ_NEW_SMALL_INT 0), repeat 0xFF 512).
Proof.
  exact (proj1 (proj2 (erase_then_read 15871 counting_block zero_mem
                         ltac:(lia) eq_refl))).
Defined.

(** ** Empty transfers *)

(** X8: a SCSI read or write of zero blocks at any block address below
    BLOCK_COUNT, the last 512 blocks included, succeeds and moves nothing:
    the read leaves the buffer and the write leaves every byte of memory as
    it was. *)
Theorem msc_empty_transfer (blk a : Z) (buf : list Z) (m : mem)
    (Hblk : 0 <= blk < BLOCK_COUNT) :
  psram_msc_Read 0 buf blk 0 m = (0, buf)
  /\ fst (psram_msc_Write 0 buf blk 0 m) = 0
  /\ snd (psram_msc_Write 0 buf blk 0 m) a = m a.
Proof.
  assert (E : block_to_ptr blk 0 = Some (PSRAM_BASE + blk * BLOCK_SIZE)).
  { unfold BLOCK_COUNT in Hblk.
    destruct (block_to_ptr_cases blk 0 ltac:(lia) ltac:(lia))
      as [(_ & _ & C) | (A & _)]; [exact C |].
    exfalso. apply A. unfold BLOCK_COUNT, BLOCK_SIZE. lia. }
  unfold psram_msc_Read, psram_msc_Write.
  cbn [psram_msc_lu_num Z.leb Z.compare]. rewrite E. cbn [fst snd].
  change (u32 (0 * BLOCK_SIZE)) with 0.
  split; [reflexivity |]. split; [reflexivity |].
  apply store_bytes_outside. lia.
Qed.

Lemma msc_empty_transfer_witness :
  psram_msc_Read 0 [1; 2; 3] 16383 0 zero_mem = (0, [1; 2; 3]).
Proof.
  apply (msc_empty_transfer 16383 0 [1; 2; 3] zero_mem).
  unfold BLOCK_COUNT. lia.
Defined.

(** ** The inquiry reply *)

(** X9: whatever the command block and the unit index, [psram_msc_Inquiry]
    either fails with -1 and leaves the reply buffer alone, or returns the
    number of bytes it wrote at the start of the reply buffer, at most 36,
    the rest of the buffer being as before; what it wrote is one of the two
    vital-product-data pages or a prefix of the standard inquiry data. *)
Theorem inquiry_reply_bounded (lun : Z) (params data_out : list Z) :
  psram_msc_Inquiry lun params data_out = (-1, data_out)
  \/ exists data,
       psram_msc_Inquiry lun params data_out
       = (Z.of_nat (length data), data ++ skipn (length data) data_out)
       /\ (length data <= 36)%nat
       /\ (data = psram_msc_vpd00 \/ data = psram_msc_vpd83
           \/ exists k, data = firstn k psram_msc_inquiry_data).
Proof.
  unfold psram_msc_Inquiry.
  destruct (Z.land (nth 1 params 0) 1 =? 0); cbn [negb].
  - destruct (psram_msc_lu_num <=? lun); [now left | right].
    set (alloc_len := u8 _).
    assert (Ha : 0 <= alloc_len) by (apply Z.mod_pos_bound; lia).
    set (len := Z.min (Z.of_nat (length psram_msc_inquiry_data)) alloc_len).
    assert (Hl : 0 <= len <= 36)
      by (subst len; change (Z.of_nat (length psram_msc_inquiry_data)) with 36; lia).
    exists (firstn (Z.to_nat len) psram_msc_inquiry_data).
    assert (Hlen : length (firstn (Z.to_nat len) psram_msc_inquiry_data)
                   = Z.to_nat len).
    { rewrite length_firstn. change (length psram_msc_inquiry_data) with 36%nat.
      lia. }
    split; [| split].
    + unfold blit. rewrite Hlen, Z2Nat.id by lia. reflexivity.
    + rewrite Hlen. lia.
    + right. right. now exists (Z.to_nat len).
  - destruct (nth 2 params 0 =? 0).
    + right. exists psram_msc_vpd00. split; [reflexivity |].
      split; [cbn; lia | now left].
    + destruct (nth 2 params 0 =? 131); [| now left].
      right. exists psram_msc_vpd83. split; [reflexivity |].
      split; [cbn; lia | now right; left].
Qed.

Lemma u8_lor_shiftl_8 (hi lo : Z) :
  0 <= lo < 2 ^ 8 -> u8 (Z.lor (Z.shiftl hi 8) lo) = lo.
Proof.
  intros Hlo. unfold u8. rewrite <- Z.land_ones by lia.
  apply Z.bits_inj'. intros i Hi.
  rewrite Z.land_spec, Z.lor_spec, Z.shiftl_spec by lia.
  destruct (Z.ltb_spec i 8) as [Hlt | Hge].
  - rewrite Z.testbit_neg_r by lia. rewrite Z.ones_spec_low by lia.
    cbn [orb]. apply andb_true_r.
  - rewrite Z.ones_spec_high by lia. rewrite andb_false_r.
    symmetry. rewrite <- (Z.mod_small lo (2 ^ 8)) by lia.
    apply Z.mod_pow2_bits_high. lia.
Qed.

(** X10: a standard inquiry on unit 0 is answered from byte 4 of the command
    block alone: the reply is the first min(36, params[4]) bytes of the
    standard inquiry data, whatever byte 3 holds. *)
Theorem inquiry_standard_length (params data_out : list Z)
    (Hevpd : Z.land (nth 1 params 0) 1 = 0)
    (Hlo : 0 <= nth 4 params 0 < 2 ^ 8) :
  psram_msc_Inquiry 0 params data_out
  = (Z.min 36 (nth 4 params 0),
     firstn (Z.to_nat (Z.min 36 (nth 4 params 0))) psram_msc_inquiry_data
     ++ skipn (Z.to_nat (Z.min 36 (nth 4 params 0))) data_out).
Proof.
  unfold psram_msc_Inquiry. rewrite Hevpd.
  cbn [Z.eqb negb psram_msc_lu_num Z.leb Z.compare].
  rewrite u8_lor_shiftl_8 by assumption.
  change (Z.of_nat (length psram_msc_inquiry_data)) with 36.
  unfold blit. rewrite length_firstn.
  change (length psram_msc_inquiry_data) with 36%nat.
  replace (Nat.min (Z.to_nat (Z.min 36 (nth 4 params 0))) 36)
    with (Z.to_nat (Z.min 36 (nth 4 params 0))) by lia.
  reflexivity.
Qed.

(** A request for 0x0124 bytes is answered like a request for 0x24. *)
Lemma inquiry_standard_length_witness :
  psram_msc_Inquiry 0 [0x12; 0x00; 0x00; 0x01; 0x24; 0x00] (repeat 0 40)
  = (36, psram_msc_inquiry_data ++ [0; 0; 0; 0]).
Proof.
  apply (inquiry_standard_length [0x12; 0x00; 0x00; 0x01; 0x24; 0x00]
           (repeat 0 40)); cbn; [reflexivity | lia].
Defined.

(** ** Clusters and sectors *)

(** X11: on a volume whose sector numbers fit 32 bits and whose data area
    starts after sector 0, [clst2sect] answers 0 exactly for the cluster
    numbers that are not clusters of the volume (0, 1, and from [n_fatent]
    up): a result of 0 always means an invalid cluster. *)
Theorem clst2sect_zero_iff (fs : FATFS) (clst : Z)
    (Hwf : fatfs_wf fs) (Hclst : 0 <= clst < 2 ^ 32) :
  clst2sect fs clst = 0 <-> clst < 2 \/ n_fatent fs <= clst.
Proof.
  destruct Hwf as (Hd & Hc & Hn & Hmax).
  split.
  - intros H0.
    destruct (Z_lt_dec clst 2) as [| H2]; [now left |].
    destruct (Z_le_dec (n_fatent fs) clst) as [| Hn']; [now right |].
    exfalso.
    rewrite clst2sect_valid in H0 by lia.
    unfold spec_sector in H0. nia.
  - intros H. apply clst2sect_invalid; lia.
Qed.

Lemma clst2sect_zero_iff_witness :
  clst2sect (fatfs_sample tt) 16340 = 0
  <-> 16340 < 2 \/ n_fatent (fatfs_sample tt) <= 16340.
Proof.
  apply (clst2sect_zero_iff (fatfs_sample tt) 16340).
  - unfold fatfs_wf. cbn. lia.
  - lia.
Defined.

(** X12: on such a volume the clusters lie in the data area in order and
    without overlap: cluster 2 starts at the data area start, cluster [c]
    at [database + csize * (c - 2)], and the [csize] sectors of a cluster end
    where a later cluster starts or before. *)
Theorem clst2sect_clusters_apart (fs : FATFS) (c1 c2 : Z)
    (Hwf : fatfs_wf fs) (Hc : 2 <= c1 < c2) (Hc2 : c2 < n_fatent fs) :
  clst2sect fs 2 = database fs
  /\ clst2sect fs c1 = database fs + csize fs * (c1 - 2)
  /\ clst2sect fs c1 + csize fs <= clst2sect fs c2.
Proof.
  destruct Hwf as (Hd & Hcs & Hn & Hmax).
  rewrite !clst2sect_valid by lia. unfold spec_sector.
  repeat split; nia.
Qed.

Lemma clst2sect_clusters_apart_witness :
  clst2sect (fatfs_sample tt) 2 = database (fatfs_sample tt)
  /\ clst2sect (fatfs_sample tt) 2 = database (fatfs_sample tt) + csize (fatfs_sample tt) * (2 - 2)
  /\ clst2sect (fatfs_sample tt) 2 + csize (fatfs_sample tt)
     <= clst2sect (fatfs_sample tt) 3.
Proof.
  apply (clst2sect_clusters_apart (fatfs_sample tt) 2 3).
  - unfold fatfs_wf. cbn. lia.
  - lia.
  - cbn. lia.
Defined.

(** ** The identifier and its digits *)

Lemma hex_digit_check :
  forallb (fun i => (digit_value (hex_digit (Z.of_nat i)) =? Z.of_nat i)
                    && is_hex_char (hex_digit (Z.of_nat i)))
    (seq 0 16) = true.
Proof. vm_compute. reflexivity. Qed.

Lemma hex_digit_value (d : Z) :
  0 <= d < 16 ->
  digit_value (hex_digit d) = d /\ is_hex_char (hex_digit d) = true.
Proof.
  intros H. pose proof hex_digit_check as C.
  rewrite forallb_forall in C. specialize (C (Z.to_nat d)).
  rewrite Z2Nat.id in C by lia.
  assert (In (Z.to_nat d) (seq 0 16)) as Hin by (apply in_seq; lia).
  apply C in Hin. apply andb_prop in Hin as [H1 H2].
  apply Z.eqb_eq in H1. now split.
Qed.

(** The digits [hex_X] puts in front of [acc] denote [n], as long as the
    fuel covers the digits of [n]. *)
Lemma hex_X_value (fuel : nat) :
  forall n acc, 0 <= n < 16 ^ Z.of_nat fuel ->
  hex_value (hex_X fuel n acc)
  = n * 16 ^ Z.of_nat (String.length acc) + hex_value acc.
Proof.
  induction fuel as [| fuel IH]; intros n acc Hn.
  - cbn [hex_X]. change (16 ^ Z.of_nat 0) with 1 in Hn.
    assert (n = 0) by lia. subst n. lia.
  - rewrite Nat2Z.inj_succ, Z.pow_succ_r in Hn by lia.
    cbn [hex_X].
    assert (Hd : 0 <= n mod 16 < 16) by (apply Z.mod_pos_bound; lia).
    destruct (hex_digit_value _ Hd) as (Hv & _).
    pose proof (Z.div_mod n 16 ltac:(lia)) as Hdm.
    assert (Hacc : hex_value (String (hex_digit (n mod 16)) acc)
                   = n mod 16 * 16 ^ Z.of_nat (String.length acc) + hex_value acc)
      by (cbn [hex_value]; now rewrite Hv).
    destruct (n / 16 =? 0) eqn:E.
    + apply Z.eqb_eq in E. rewrite Hacc. f_equal. f_equal. lia.
    + rewrite IH by (split; [apply Z.div_pos | apply Z.div_lt_upper_bound]; lia).
      rewrite Hacc. cbn [String.length].
      rewrite Nat2Z.inj_succ, Z.pow_succ_r by lia.
      set (P := 16 ^ Z.of_nat (String.length acc)) in *.
      rewrite Hdm at 3. ring.
Qed.

Lemma hex_X_all_hex (fuel : nat) :
  forall n acc, all_hex acc = true -> all_hex (hex_X fuel n acc) = true.
Proof.
  induction fuel as [| fuel IH]; intros n acc Hacc; [exact Hacc |].
  cbn [hex_X].
  assert (Hd : 0 <= n mod 16 < 16) by (apply Z.mod_pos_bound; lia).
  destruct (hex_digit_value _ Hd) as (_ & Hh).
  assert (all_hex (String (hex_digit (n mod 16)) acc) = true)
    by (cbn [all_hex]; now rewrite Hh, Hacc).
  destruct (n / 16 =? 0); [assumption | now apply IH].
Qed.

Lemma hex_X_length (fuel : nat) :
  forall n acc,
  (String.length acc + Nat.min 1 fuel <= String.length (hex_X fuel n acc)
   <= String.length acc + fuel)%nat.
Proof.
  induction fuel as [| fuel IH]; intros n acc; [cbn; lia |].
  cbn [hex_X]. destruct (n / 16 =? 0).
  - cbn [String.length]. lia.
  - specialize (IH (n / 16) (String (hex_digit (n mod 16)) acc)).
    cbn [String.length] in IH. lia.
Qed.

(** X13: the [%02X] conversion of the identifier is a faithful hexadecimal
    rendering: for every [unsigned int] value the string it gives consists of
    upper-case hexadecimal digits, between 2 and 8 of them, and read as a
    hexadecimal number it is the value. *)
Theorem fmt_02X_reads_back (x : Z) (Hx : 0 <= x < 2 ^ 32) :
  hex_value (fmt_02X x) = x
  /\ all_hex (fmt_02X x) = true
  /\ (2 <= String.length (fmt_02X x) <= 8)%nat.
Proof.
  unfold fmt_02X. rewrite (u32_small x) by assumption.
  pose proof (hex_X_value 8 x EmptyString ltac:(cbn; lia)) as Hv.
  pose proof (hex_X_all_hex 8 x EmptyString eq_refl) as Hh.
  pose proof (hex_X_length 8 x EmptyString) as Hl.
  cbn [String.length hex_value Nat.min] in Hv, Hl.
  set (s := hex_X 8 x EmptyString) in *.
  destruct (Z.of_nat (String.length s) <? 2) eqn:E.
  - apply Z.ltb_lt in E. cbn [hex_value all_hex String.length].
    rewrite Hh. repeat split; try reflexivity; try lia.
    rewrite Hv. change (digit_value "0") with 0. lia.
  - apply Z.ltb_ge in E. repeat split; try assumption; lia.
Qed.

Lemma fmt_02X_reads_back_witness :
  hex_value (fmt_02X 0x153) = 0x153
  /\ all_hex (fmt_02X 0x153) = true
  /\ (2 <= String.length (fmt_02X 0x153) <= 8)%nat.
Proof. apply (fmt_02X_reads_back 0x153). lia. Defined.

Lemma fmt_02X_wide_check :
  forallb (fun i => Nat.eqb (String.length (fmt_02X (Z.of_nat i))) 3)
    (seq 256 255) = true.
Proof. vm_compute. reflexivity. Qed.

(** A sum of two bytes that exceeds a byte prints as three digits. *)
Lemma fmt_02X_wide (x : Z) :
  256 <= x < 511 ->
  exists a b c, fmt_02X x = String a (String b (String c EmptyString)).
Proof.
  intros H. pose proof fmt_02X_wide_check as C.
  rewrite forallb_forall in C. specialize (C (Z.to_nat x)).
  rewrite Z2Nat.id in C by lia.
  assert (In (Z.to_nat x) (seq 256 255)) as Hin by (apply in_seq; lia).
  apply C, Nat.eqb_eq in Hin.
  destruct (fmt_02X x) as [| a [| b [| c [| d s]]]]; try discriminate Hin.
  now exists a, b, c.
Qed.

(** X14: for a 12-byte unique ID the identifier in the file name has 12
    hexadecimal digits plus one for each of the two byte sums that exceeds
    255; the 12 characters written into the files are the whole identifier
    exactly when neither sum does. *)
Theorem serial_name_and_content (id : list Z)
    (Hlen : length id = 12%nat) (Hid : Forall (fun b => 0 <= b < 256) id) :
  Z.of_nat (String.length (serial_hex id))
  = 12 + (if 256 <=? nth 10 id 0 + nth 2 id 0 then 1 else 0)
       + (if 256 <=? nth 8 id 0 + nth 0 id 0 then 1 else 0)
  /\ (substring 0 12 (serial_hex id) = serial_hex id
      <-> nth 10 id 0 + nth 2 id 0 < 256 /\ nth 8 id 0 + nth 0 id 0 < 256).
Proof.
  do 13 (destruct id as [| ? id]; try discriminate Hlen). clear Hlen.
  repeat match goal with
         | H : Forall _ (_ :: _) |- _ => inversion H; subst; clear H
         end.
  unfold serial_hex. cbn [nth].
  repeat match goal with
         | |- context [fmt_02X (?a + ?b)] =>
             let S := fresh "S" in
             assert (S : (a + b < 256 /\ two_hex (fmt_02X (a + b)) = true)
                         \/ (256 <= a + b
                             /\ exists x y z, fmt_02X (a + b)
                                = String x (String y (String z EmptyString))))
               by (destruct (Z_lt_dec (a + b) 256);
                   [left; split; [| apply fmt_02X_byte] | right; split;
                    [| apply fmt_02X_wide]]; lia);
             generalize dependent (fmt_02X (a + b)); intros
         end.
  repeat match goal with
         | |- context [fmt_02X ?a] =>
             let B := fresh "B" in
             assert (B : two_hex (fmt_02X a) = true)
               by (apply fmt_02X_byte; lia);
             generalize dependent (fmt_02X a); intros
         end.
  repeat match goal with
         | H : two_hex ?s = true |- _ =>
             apply two_hex_inv in H as (? & ? & -> & _ & _)
         end.
  repeat match goal with
         | H : _ \/ _ |- _ =>
             destruct H as [(? & H) | (? & ? & ? & ? & ->)];
             [apply two_hex_inv in H as (? & ? & -> & _ & _) |]
         end;
    repeat match goal with
           | |- context [256 <=? ?v] =>
               destruct (Z.leb_spec 256 v); try lia
           end;
    cbn [append substring String.length];
    (split; [reflexivity |]);
    (split; [intros Heq; try (split; assumption);
             apply (f_equal String.length) in Heq; cbn in Heq; discriminate Heq
            | intros (? & ?); try reflexivity; lia]).
Qed.

(** With the sample ID neither sum exceeds a byte; with 0xFF in byte 10 the
    first does. *)
Lemma serial_name_and_content_witness :
  Z.of_nat (String.length (serial_hex sample_id)) = 12 + 0 + 0
  /\ (substring 0 12 (serial_hex sample_id) = serial_hex sample_id
      <-> nth 10 sample_id 0 + nth 2 sample_id 0 < 256
          /\ nth 8 sample_id 0 + nth 0 sample_id 0 < 256).
Proof.
  assert (Hid : Forall (fun b => 0 <= b < 256) sample_id)
    by (unfold sample_id; repeat constructor; lia).
  exact (serial_name_and_content sample_id eq_refl Hid).
Defined.

Example serial_hex_overflow :
  serial_hex [0x10; 0x32; 0x54; 0x76; 0x98; 0xBA; 0xDC; 0xFE; 0x01; 0x23; 0xFF; 0x67]
  = "671532311FEDC"%string.
Proof. vm_compute. reflexivity. Qed.

(** ** The resolver's library calls and output *)

Lemma is_FR_OK_true (r : FRESULT) : is_FR_OK r = true -> r = FR_OK.
Proof. destruct r; (reflexivity || discriminate). Qed.


Section ResolverRuns.

Variable L : Type.
Variable ff : ff_call -> mem * L -> FRESULT * (mem * L).
Variable cltbl : L -> list Z.
Variable fatfs : L -> FATFS.

(** X15: [psram_mmap_file] stops at the first library call that fails and
    raises [ValueError] naming the step: "unmounted" after a failed [f_mount],
    "open file" after a failed [f_open], "lseek" after a failed [f_lseek];
    only when all three succeed does it close the file and return [None], so
    a file whose link map could not be made is left open.  It asks the
    library for nothing else: no write, no format. *)
Theorem mmap_file_call_sequence (fname : string) (w : world L) :
  (exists r, is_FR_OK r = false
     /\ fst (psram_mmap_file ff cltbl fatfs fname w)
        = mp_raise_ValueError (Some "unmounted"%string)
     /\ calls (snd (psram_mmap_file ff cltbl fatfs fname w))
        = calls w ++ [(f_mount, r)])
  \/ (exists r, is_FR_OK r = false
        /\ fst (psram_mmap_file ff cltbl fatfs fname w)
           = mp_raise_ValueError (Some "open file"%string)
        /\ calls (snd (psram_mmap_file ff cltbl fatfs fname w))
           = calls w ++ [(f_mount, FR_OK); (f_open fname [FA_READ], r)])
  \/ (exists r, is_FR_OK r = false
        /\ fst (psram_mmap_file ff cltbl fatfs fname w)
           = mp_raise_ValueError (Some "lseek"%string)
        /\ calls (snd (psram_mmap_file ff cltbl fatfs fname w))
           = calls w ++ [(f_mount, FR_OK); (f_open fname [FA_READ], FR_OK);
                         (f_lseek_CREATE_LINKMAP 64, r)])
  \/ (exists r,
        fst (psram_mmap_file ff cltbl fatfs fname w) = Return mp_const_none
        /\ calls (snd (psram_mmap_file ff cltbl fatfs fname w))
           = calls w ++ [(f_mount, FR_OK); (f_open fname [FA_READ], FR_OK);
                         (f_lseek_CREATE_LINKMAP 64, FR_OK); (f_close, r)]).
Proof.
  destruct (psram_mmap_file ff cltbl fatfs fname w) as [res w'] eqn:Run.
  cbn [fst snd]. unfold psram_mmap_file in Run.
  destruct (ff_do_calls L ff f_mount w) as (r1 & w1 & E1 & _ & C1 & _).
  rewrite (bind_step _ _ _ _ _ _ E1) in Run.
  destruct (is_FR_OK r1) eqn:Ok1; cbn [negb] in Run.
  2:{ left. exists r1. unfold ret in Run.
      assert (res = mp_raise_ValueError (Some "unmounted"%string)) by congruence.
      assert (w' = w1) by congruence. subst. auto. }
  apply is_FR_OK_true in Ok1. subst r1.
  destruct (ff_do_calls L ff (f_open fname [FA_READ]) w1)
    as (r2 & w2 & E2 & _ & C2 & _).
  rewrite (bind_step _ _ _ _ _ _ E2) in Run.
  destruct (is_FR_OK r2) eqn:Ok2; cbn [negb] in Run.
  2:{ right. left. exists r2. unfold ret in Run.
      assert (res = mp_raise_ValueError (Some "open file"%string)) by congruence.
      assert (w' = w2) by congruence. subst.
      rewrite C2, C1, <- app_assoc. auto. }
  apply is_FR_OK_true in Ok2. subst r2.
  destruct (ff_do_calls L ff (f_lseek_CREATE_LINKMAP 64) w2)
    as (r3 & w3 & E3 & _ & C3 & _).
  rewrite (bind_step _ _ _ _ _ _ E3) in Run.
  destruct (is_FR_OK r3) eqn:Ok3; cbn [negb] in Run.
  2:{ right. right. left. exists r3. unfold ret in Run.
      assert (res = mp_raise_ValueError (Some "lseek"%string)) by congruence.
      assert (w' = w3) by congruence. subst.
      rewrite C3, C2, C1, <- !app_assoc. auto. }
  apply is_FR_OK_true in Ok3. subst r3.
  unfold bind at 1 2 3 in Run. unfold mp_printf, print_all in Run.
  cbv beta iota in Run. cbn [region lib calls console] in Run.
  match type of Run with
  | context [bind L (ff_do ff f_close) ?k ?w0] =>
      destruct (ff_do_calls L ff f_close w0) as (r4 & w4 & E4 & _ & C4 & _);
      rewrite (bind_step _ _ k _ _ _ E4) in Run
  end.
  cbn [calls] in C4. unfold ret in Run.
  right. right. right. exists r4.
  assert (res = Return mp_const_none) by congruence.
  assert (w' = w4) by congruence. subst.
  rewrite C4, C3, C2, C1, <- !app_assoc. auto.
Qed.


End ResolverRuns.


(** ** Unsupported units on the data path *)

(** X17: a unit index above the one [psram_msc_GetMaxLun] reports is refused
    on the data path: the SCSI read and write return -1 and leave buffer and
    memory alone, and so does a standard inquiry; an inquiry for vital
    product data does not look at the unit index and is answered as on
    unit 0. *)
Theorem msc_unsupported_unit_data_path (lun blk n : Z)
    (params buf : list Z) (m : mem)
    (Hlun : psram_msc_GetMaxLun < lun) :
  psram_msc_Read lun buf blk n m = (-1, buf)
  /\ psram_msc_Write lun buf blk n m = (-1, m)
  /\ psram_msc_Inquiry lun params buf
     = if Z.land (nth 1 params 0) 1 =? 0 then (-1, buf)
       else psram_msc_Inquiry 0 params buf.
Proof.
  assert (E : (psram_msc_lu_num <=? lun) = true)
    by (apply Z.leb_le; unfold psram_msc_GetMaxLun in Hlun; lia).
  unfold psram_msc_Read, psram_msc_Write, psram_msc_Inquiry. rewrite E.
  repeat split. now destruct (Z.land (nth 1 params 0) 1 =? 0).
Qed.

Lemma msc_unsupported_unit_data_path_witness :
  psram_msc_Read 1 [9; 9] 0 1 zero_mem = (-1, [9; 9])
  /\ psram_msc_Inquiry 1 [0x12; 0x01; 0x83; 0x00; 0xFF; 0x00] (repeat 0 8)
     = (4, [0x00; 0x83; 0x00; 0x00; 0; 0; 0; 0]).
Proof.
  pose proof (msc_unsupported_unit_data_path 1 0 1
                [0x12; 0x01; 0x83; 0x00; 0xFF; 0x00] [9; 9] zero_mem
                ltac:(unfold psram_msc_GetMaxLun, psram_msc_lu_num; lia))
    as (HR & _ & _).
  split; [exact HR | reflexivity].
Defined.
